(** * Sensor-value validator of the GoodWe integration

    A shallow embedding of [custom_components/goodwe/validators.py] and the
    properties its specification states about it.

    Number model.  Python [int] and [float] readings are embedded as one type
    [number]: a finite reading is the exact rational it denotes, and the three
    non-finite floats are kept apart ([PInf], [NInf], [NaN]) because the
    pipeline has a finiteness step.  Comparisons, [abs], [max] and [min] are
    exact in Python and exact here.  The [OverflowError] of converting an
    integer beyond the float range is outside the model.

    Arithmetic.  The outlier check is the one method that computes with
    readings, in binary64.  The methods that reach its operations are given
    with the arithmetic as a parameter ([_validate_outlier_with] and its
    callers), and [binary64_arithmetic] is the arithmetic of the source: every
    operation rounds to the nearest binary64 value.  [exact_arithmetic] does
    not round; with it the parametrised methods are [_validate_outlier] and
    its callers.  What is proved of the outlier rule itself is proved for
    every arithmetic and evaluated in binary64; the other properties are
    proved with exact arithmetic.  The distance
    test of [_is_modbus_error] subtracts a sentinel from the reading and
    compares with [0.01]; the difference of two floats that close is exact
    and no float lies between 1/100 and the float nearest to it, so that the
    test is taken over the rationals.

    State model.  The validator object is a record that every method takes
    and returns (explicit state passing); its dictionaries are [gmap]s keyed
    by sensor id.  The batch given to [validate_data] and the dictionary it
    returns are association lists in insertion order, as Python dictionaries
    iterate. *)

From Stdlib Require Import QArith Qabs Lia.
From stdpp Require Import gmap strings list sorting.

Open Scope string_scope.
Open Scope list_scope.

(** ** Numbers *)

Inductive number : Type :=
  | Fin (q : Q)
  | PInf
  | NInf
  | NaN.

(** A Python integer as a reading. *)
Definition of_int (z : Z) : number := Fin (inject_Z z).

(** Strict order of rationals as a boolean. *)
Definition Qltb (a b : Q) : bool := negb (Qle_bool b a).

(** [a < b]; every comparison with [NaN] is false. *)
Definition num_ltb (a b : number) : bool :=
  match a, b with
  | NaN, _ | _, NaN => false
  | Fin x, Fin y => Qltb x y
  | NInf, NInf => false
  | NInf, _ => true
  | _, NInf => false
  | PInf, _ => false
  | Fin _, PInf => true
  end.

(** [a <= b]. *)
Definition num_leb (a b : number) : bool :=
  match a, b with
  | NaN, _ | _, NaN => false
  | Fin x, Fin y => Qle_bool x y
  | NInf, _ => true
  | _, PInf => true
  | _, NInf => false
  | PInf, _ => false
  end.

(** [a > b]. *)
Definition num_gtb (a b : number) : bool := num_ltb b a.

(** [a == b]. *)
Definition num_eqb (a b : number) : bool :=
  match a, b with
  | Fin x, Fin y => Qeq_bool x y
  | PInf, PInf | NInf, NInf => true
  | _, _ => false
  end.

(** Unary minus, addition, subtraction, product and absolute value, with
    the IEEE rules for the non-finite cases. *)
Definition num_neg (a : number) : number :=
  match a with
  | Fin x => Fin (- x)
  | PInf => NInf
  | NInf => PInf
  | NaN => NaN
  end.

Definition num_add (a b : number) : number :=
  match a, b with
  | NaN, _ | _, NaN => NaN
  | Fin x, Fin y => Fin (x + y)
  | PInf, NInf | NInf, PInf => NaN
  | PInf, _ | _, PInf => PInf
  | NInf, _ | _, NInf => NInf
  end.

Definition num_sub (a b : number) : number := num_add a (num_neg b).

(** Sign of a rational as a comparison with zero. *)
Definition Qsign (x : Q) : comparison := (0 ?= x)%Q.

Definition inf_times (pos : bool) (x : Q) : number :=
  match Qsign x with
  | Eq => NaN
  | Lt => if pos then PInf else NInf
  | Gt => if pos then NInf else PInf
  end.

Definition num_mul (a b : number) : number :=
  match a, b with
  | NaN, _ | _, NaN => NaN
  | Fin x, Fin y => Fin (x * y)
  | PInf, Fin y | Fin y, PInf => inf_times true y
  | NInf, Fin y | Fin y, NInf => inf_times false y
  | PInf, PInf | NInf, NInf => PInf
  | PInf, NInf | NInf, PInf => NInf
  end.

Definition num_abs (a : number) : number :=
  match a with
  | Fin x => Fin (Qabs x)
  | PInf | NInf => PInf
  | NaN => NaN
  end.

(** [a / n] for a list length [n]; the only division of the source is
    [sum(history) / len(history)], reached with [n >= 3]. *)
Definition num_div_len (a : number) (n : nat) : number :=
  match a with
  | Fin x => Fin (x / inject_Z (Z.of_nat n))
  | other => other
  end.

(** [math.isfinite]. *)
Definition isfinite (a : number) : bool :=
  match a with
  | Fin _ => true
  | _ => false
  end.

(** [sum(xs)]: a left fold that starts from the integer 0. *)
Definition py_sum (xs : list number) : number :=
  fold_left num_add xs (of_int 0).

(** [max(x, *xs)]: the running maximum is replaced only by an item that
    compares greater. *)
Definition py_max (x : number) (xs : list number) : number :=
  fold_left (fun acc item => if num_gtb item acc then item else acc) xs x.

(** [min(x, *xs)]. *)
Definition py_min (x : number) (xs : list number) : number :=
  fold_left (fun acc item => if num_ltb item acc then item else acc) xs x.

(** ** Values and dictionaries *)

(** A raw reading: [isinstance(value, (int, float)) and not isinstance(value,
    bool)] holds exactly for [PyNum]. *)
Inductive PyValue : Type :=
  | PyNone
  | PyBool (b : bool)
  | PyNum (x : number)
  | PyStr (s : string)
  | PyOther (repr : string).

(** The numeric readings, the only ones the checks look at. *)
Definition is_numeric (v : PyValue) : bool :=
  match v with
  | PyNum _ => true
  | _ => false
  end.

(** An insertion-ordered dictionary from sensor id to reading. *)
Definition dict_get {A} (d : list (string * A)) (k : string) : option A :=
  snd <$> List.find (fun kv => String.eqb (fst kv) k) d.

(** [d[k] = v]: overwrite in place when the key exists, append otherwise. *)
Fixpoint dict_set {A} (d : list (string * A)) (k : string) (v : A)
  : list (string * A) :=
  match d with
  | [] => [(k, v)]
  | (k', v') :: d' =>
      if String.eqb k' k then (k', v) :: d' else (k', v') :: dict_set d' k v
  end.

(** [sub in s] on strings. *)
Fixpoint str_contains (sub s : string) : bool :=
  String.prefix sub s
  || match s with
     | EmptyString => false
     | String _ s' => str_contains sub s'
     end.

(** [s.startswith(p)]. *)
Definition startswith (s p : string) : bool := String.prefix p s.

(** ** Rule tables *)

(** [MODBUS_ERROR_VALUES], in the order of the source literal; the source
    holds them in a set, and both uses below only ask whether some element
    matches. *)
Definition MODBUS_ERROR_VALUES : list Q :=
  [65535; 32767; 32768; -32768; 65535]%Q.

(** A [(min, max)] pair of integer literals. *)
Definition int_range (lo hi : Z) : number * number := (of_int lo, of_int hi).

(** [DEFAULT_RANGES], by unit. *)
Definition DEFAULT_RANGES : gmap string (number * number) :=
  list_to_map
    [ ("V", int_range 0 1000);
      ("A", int_range (-150) 150);
      ("W", int_range (-50000) 50000);
      ("kWh", int_range 0 100000);
      ("VA", int_range (-50000) 50000);
      ("var", int_range (-50000) 50000);
      ("C", int_range (-40) 100);
      ("Hz", int_range 45 65);
      ("%", int_range 0 100);
      ("h", int_range 0 1000000) ].

(** [SENSOR_SPECIFIC_RANGES], by sensor id. *)
Definition SENSOR_SPECIFIC_RANGES : gmap string (number * number) :=
  list_to_map
    [ ("vgrid", int_range 180 280);
      ("vgrid2", int_range 180 280);
      ("vgrid3", int_range 180 280);
      ("vbattery1", int_range 40 600);
      ("vpv1", int_range 0 1000);
      ("vpv2", int_range 0 1000);
      ("vpv3", int_range 0 1000);
      ("vpv4", int_range 0 1000);
      ("fgrid", int_range 49 61);
      ("fgrid2", int_range 49 61);
      ("fgrid3", int_range 49 61);
      ("battery_soc", int_range 0 100);
      ("e_day", int_range 0 200);
      ("e_load_day", int_range 0 500) ].

(** [MONOTONIC_INCREASING_SENSORS]. *)
Definition MONOTONIC_INCREASING_SENSORS : list string :=
  [ "e_total";
    "e_bat_charge_total";
    "e_bat_discharge_total";
    "meter_e_total_exp";
    "meter_e_total_imp";
    "h_total" ].

(** [sensor_id in MONOTONIC_INCREASING_SENSORS]. *)
Definition is_monotonic_sensor (sensor_id : string) : bool :=
  existsb (String.eqb sensor_id) MONOTONIC_INCREASING_SENSORS.

(** ** Statistics sink ([ValidationStats]) *)

(** The reason recorded with a rejection.  The source formats it as text;
    the embedding keeps the message kind and the values interpolated in it. *)
Inductive reason : Type :=
  | ModbusErrorValue
  | NonFiniteValue
  | OutsideCustomRange (min_val max_val : number)
  | OutsideSensorSpecificRange (min_val max_val : number)
  | OutsideUnitRange (unit : string) (min_val max_val : number)
  | MonotonicDecreased (last_value value : number)
  | OutlierRecentRange (value min_recent max_recent : number)
  | OutlierFromMean (value mean : number).

Record failure_entry : Type := mkFailure {
  f_sensor_id : string;
  f_value : number;
  f_reason : reason
}.

Record ValidationStats : Type := mkStats {
  rejected_count : gmap string nat;
  recent_failures : list failure_entry
}.

Definition max_recent_failures : nat := 50.

Definition ValidationStats_init : ValidationStats :=
  {| rejected_count := ∅; recent_failures := [] |}.

(** [list.pop(0)] on a list known to be non-empty. *)
Definition pop0 {A} (l : list A) : list A := tail l.

(** [ValidationStats.record_rejection]: count the rejection, log it, and
    drop the oldest log entry once the log exceeds its capacity. *)
Definition record_rejection (st : ValidationStats) (sensor_id : string)
    (value : number) (why : reason) : ValidationStats :=
  let count := (default 0 (rejected_count st !! sensor_id) + 1)%nat in
  let failures :=
    recent_failures st ++ [mkFailure sensor_id value why] in
  {| rejected_count := <[sensor_id := count]> (rejected_count st);
     recent_failures :=
       if (max_recent_failures <? length failures)%nat
       then pop0 failures else failures |}.

(** ** The validator ([SensorValidator]) *)

Record SensorValidator : Type := mkValidator {
  enable_validation : bool;
  outlier_sensitivity : number;
  custom_ranges : gmap string (number * number);
  stats : ValidationStats;
  _value_history : gmap string (list number);
  _last_monotonic_values : gmap string number
}.

Definition _max_history : nat := 10.

(** [SensorValidator.__init__]; an absent [custom_ranges] is the empty
    dictionary. *)
Definition SensorValidator_init (enable : bool) (sensitivity : number)
    (custom : option (gmap string (number * number))) : SensorValidator :=
  {| enable_validation := enable;
     outlier_sensitivity := sensitivity;
     custom_ranges := default ∅ custom;
     stats := ValidationStats_init;
     _value_history := ∅;
     _last_monotonic_values := ∅ |}.

(** Field updates of the validator record. *)
Definition set_stats (self : SensorValidator) (st : ValidationStats)
  : SensorValidator :=
  {| enable_validation := enable_validation self;
     outlier_sensitivity := outlier_sensitivity self;
     custom_ranges := custom_ranges self;
     stats := st;
     _value_history := _value_history self;
     _last_monotonic_values := _last_monotonic_values self |}.

Definition set_history (self : SensorValidator)
    (h : gmap string (list number)) : SensorValidator :=
  {| enable_validation := enable_validation self;
     outlier_sensitivity := outlier_sensitivity self;
     custom_ranges := custom_ranges self;
     stats := stats self;
     _value_history := h;
     _last_monotonic_values := _last_monotonic_values self |}.

Definition set_last_monotonic (self : SensorValidator)
    (m : gmap string number) : SensorValidator :=
  {| enable_validation := enable_validation self;
     outlier_sensitivity := outlier_sensitivity self;
     custom_ranges := custom_ranges self;
     stats := stats self;
     _value_history := _value_history self;
     _last_monotonic_values := m |}.

(** [self.stats.record_rejection(...)] followed by [return False]. *)
Definition reject (self : SensorValidator) (sensor_id : string)
    (value : number) (why : reason) : bool * SensorValidator :=
  (false, set_stats self (record_rejection (stats self) sensor_id value why)).

(** [_is_modbus_error]: an exact match with a sentinel, or a distance below
    0.01 from one. *)
Definition _is_modbus_error (value : number) : bool :=
  existsb (fun error_val => num_eqb value (Fin error_val)) MODBUS_ERROR_VALUES
  || existsb
       (fun error_val =>
          num_ltb (num_abs (num_sub value (Fin error_val))) (Fin 0.01))
       MODBUS_ERROR_VALUES.

(** [_is_finite]. *)
Definition _is_finite (value : number) : bool := isfinite value.

(** Per-cycle metadata: sensor id to attribute dictionary. *)
Definition metadata : Type := option (gmap string (gmap string string)).

(** The identifier patterns of [_get_sensor_unit], tried in order. *)
Definition infer_unit (sensor_id : string) : option string :=
  if str_contains "voltage" sensor_id || startswith sensor_id "v"
  then Some "V"
  else if str_contains "current" sensor_id || startswith sensor_id "i"
  then Some "A"
  else if str_contains "power" sensor_id || startswith sensor_id "p"
  then Some "W"
  else if str_contains "energy" sensor_id || startswith sensor_id "e_"
  then Some "kWh"
  else if str_contains "temp" sensor_id || str_contains "temperature" sensor_id
  then Some "C"
  else if str_contains "freq" sensor_id || startswith sensor_id "f"
  then Some "Hz"
  else if str_contains "soc" sensor_id || str_contains "%" sensor_id
  then Some "%"
  else None.

(** [_get_sensor_unit]: the metadata entry's [.get("unit")] when the
    sensor has an entry, the identifier patterns otherwise. *)
Definition _get_sensor_unit (sensor_id : string) (sensor_metadata : metadata)
  : option string :=
  match sensor_metadata with
  | Some md =>
      match md !! sensor_id with
      | Some attrs => attrs !! "unit"
      | None => infer_unit sensor_id
      end
  | None => infer_unit sensor_id
  end.

(** [min_val <= value <= max_val]. *)
Definition in_bounds (bounds : number * number) (value : number) : bool :=
  num_leb (fst bounds) value && num_leb value (snd bounds).

(** [unit and unit in DEFAULT_RANGES], then the table entry. *)
Definition unit_range (unit : option string) : option (number * number) :=
  match unit with
  | Some u => if String.eqb u "" then None else DEFAULT_RANGES !! u
  | None => None
  end.

(** [_validate_range]: custom range, else built-in sensor range, else unit
    range; the first table that has the key decides. *)
Definition _validate_range (self : SensorValidator) (sensor_id : string)
    (value : number) (unit : option string) : bool * SensorValidator :=
  match custom_ranges self !! sensor_id with
  | Some (min_val, max_val) =>
      if negb (in_bounds (min_val, max_val) value)
      then reject self sensor_id value (OutsideCustomRange min_val max_val)
      else (true, self)
  | None =>
      match SENSOR_SPECIFIC_RANGES !! sensor_id with
      | Some (min_val, max_val) =>
          if negb (in_bounds (min_val, max_val) value)
          then reject self sensor_id value
                 (OutsideSensorSpecificRange min_val max_val)
          else (true, self)
      | None =>
          match unit, unit_range unit with
          | Some u, Some (min_val, max_val) =>
              if negb (in_bounds (min_val, max_val) value)
              then reject self sensor_id value
                     (OutsideUnitRange u min_val max_val)
              else (true, self)
          | _, _ => (true, self)
          end
      end
  end.

(** [_validate_monotonic]: for a monotonic sensor, reject a value below the
    tracked one, otherwise store the value in the tracker. *)
Definition _validate_monotonic (self : SensorValidator) (sensor_id : string)
    (value : number) : bool * SensorValidator :=
  if negb (is_monotonic_sensor sensor_id) then (true, self)
  else
    let update :=
      (true,
       set_last_monotonic self
         (<[sensor_id := value]> (_last_monotonic_values self))) in
    match _last_monotonic_values self !! sensor_id with
    | Some last_value =>
        if num_ltb value last_value
        then reject self sensor_id value (MonotonicDecreased last_value value)
        else update
    | None => update
    end.

(** [_validate_outlier].  The source reads [history] after the length test,
    so the empty case of the inner match is never reached.  The arithmetic
    is exact here; [_validate_outlier_with] below has it as a parameter. *)
Definition _validate_outlier (self : SensorValidator) (sensor_id : string)
    (value : number) : bool * SensorValidator :=
  match _value_history self !! sensor_id with
  | None => (true, self)
  | Some history =>
      if (length history <? 3)%nat then (true, self)
      else
        match history with
        | [] => (true, self)
        | first :: rest =>
            let mean := num_div_len (py_sum history) (length history) in
            let max_recent := py_max first rest in
            let min_recent := py_min first rest in
            if num_ltb (num_abs mean) (Fin 0.1) then
              let range_val := num_sub max_recent min_recent in
              let threshold := num_mul range_val (outlier_sensitivity self) in
              if num_gtb (num_abs value)
                   (num_add threshold
                      (py_max (num_abs max_recent) [num_abs min_recent]))
              then reject self sensor_id value
                     (OutlierRecentRange value min_recent max_recent)
              else (true, self)
            else
              let threshold :=
                num_mul (num_abs mean) (outlier_sensitivity self) in
              if num_gtb (num_abs (num_sub value mean)) threshold
              then reject self sensor_id value (OutlierFromMean value mean)
              else (true, self)
        end
  end.

(** [_validate_value]: the verdict pipeline, first failing check wins. *)
Definition _validate_value (self : SensorValidator) (sensor_id : string)
    (value : PyValue) (sensor_metadata : metadata) : bool * SensorValidator :=
  match value with
  | PyNum x =>
      if _is_modbus_error x
      then reject self sensor_id x ModbusErrorValue
      else if negb (_is_finite x)
      then reject self sensor_id x NonFiniteValue
      else
        let unit := _get_sensor_unit sensor_id sensor_metadata in
        let '(ok, self) := _validate_range self sensor_id x unit in
        if negb ok then (false, self)
        else
          let '(ok, self) := _validate_monotonic self sensor_id x in
          if negb ok then (false, self)
          else
            let '(ok, self) := _validate_outlier self sensor_id x in
            if negb ok then (false, self) else (true, self)
  | _ => (true, self)
  end.

(** [_update_history]: append, then drop the oldest value once the window
    is exceeded. *)
Definition _update_history (self : SensorValidator) (sensor_id : string)
    (value : number) : SensorValidator :=
  let history := default [] (_value_history self !! sensor_id) ++ [value] in
  set_history self
    (<[sensor_id :=
         if (_max_history <? length history)%nat then pop0 history
         else history]> (_value_history self)).

(** One iteration of the loop of [validate_data]: the validator and the
    dictionary built so far, after the entry [(sensor_id, value)]. *)
Definition validate_entry (sensor_metadata : metadata)
    (acc : SensorValidator * list (string * PyValue))
    (entry : string * PyValue) : SensorValidator * list (string * PyValue) :=
  let '(self, validated_data) := acc in
  let '(sensor_id, value) := entry in
  let '(ok, self) := _validate_value self sensor_id value sensor_metadata in
  if ok then
    (match value with
     | PyNum x => _update_history self sensor_id x
     | _ => self
     end,
     dict_set validated_data sensor_id value)
  else (self, validated_data).

(** [validate_data]. *)
Definition validate_data (self : SensorValidator)
    (data : list (string * PyValue)) (sensor_metadata : metadata)
  : list (string * PyValue) * SensorValidator :=
  if negb (enable_validation self) then (data, self)
  else
    let '(self, validated_data) :=
      fold_left (validate_entry sensor_metadata) data (self, []) in
    (validated_data, self).

(** A sequence of polling cycles on one validator. *)
Definition run (self : SensorValidator)
    (calls : list (list (string * PyValue) * metadata)) : SensorValidator :=
  fold_left (fun s call => snd (validate_data s (fst call) (snd call)))
    calls self.

(** ** Floating-point arithmetic of the outlier check

    The outlier check is the one place where the source adds, subtracts,
    multiplies and divides readings.  Comparisons, [abs], [max] and [min] are
    exact in Python; the five operations below and the literal [0.1] are
    what the floating-point arithmetic decides. *)

(** [sum(history)], [total / len(history)], [a - b], [a * b], [a + b] and
    the literal [0.1]. *)
Record arithmetic : Type := mkArithmetic {
  ar_sum : list number -> number;
  ar_div_len : number -> nat -> number;
  ar_sub : number -> number -> number;
  ar_mul : number -> number -> number;
  ar_add : number -> number -> number;
  ar_tenth : number
}.

(** Arithmetic without rounding. *)
Definition exact_arithmetic : arithmetic :=
  {| ar_sum := py_sum;
     ar_div_len := num_div_len;
     ar_sub := num_sub;
     ar_mul := num_mul;
     ar_add := num_add;
     ar_tenth := Fin 0.1 |}.

(** [n / (d * 2^k)] as a fraction of integers, for [k] of either sign. *)
Definition scaled (n d k : Z) : Z * Z :=
  if (0 <=? k)%Z then (n, (d * 2 ^ k)%Z) else ((n * 2 ^ (- k))%Z, d).

(** The integer nearest to [n / d], ties to the even one ([0 < d]). *)
Definition nearest_even (n d : Z) : Z :=
  let f := (n / d)%Z in
  let r := (n mod d)%Z in
  match (2 * r ?= d)%Z with
  | Lt => f
  | Gt => (f + 1)%Z
  | Eq => if Z.even f then f else (f + 1)%Z
  end.

(** [m * 2^t] as a rational. *)
Definition times_pow2 (m t : Z) : Q :=
  if (0 <=? t)%Z then inject_Z (m * 2 ^ t)
  else Qred (Qmake m (Z.to_pos (2 ^ (- t)))).

(** The binary64 value nearest to the positive rational [n / d], ties to
    even: 53 significant bits, exponents from -1022 (below that the spacing
    stays 2^-1074), overflow to infinity from 2^1024. *)
Definition binary64_magnitude (n d : Z) : option Q :=
  let e0 := (Z.log2 n - Z.log2 d)%Z in
  let '(n0, d0) := scaled n d e0 in
  let e := if (n0 <? d0)%Z then (e0 - 1)%Z else e0 in
  let t := (Z.max e (-1022) - 52)%Z in
  let '(n1, d1) := scaled n d t in
  let m := nearest_even n1 d1 in
  if ((0 <=? t) && (2 ^ 1024 <=? m * 2 ^ t))%Z then None
  else Some (times_pow2 m t).

(** Rounding of a rational to binary64. *)
Definition binary64 (q : Q) : number :=
  let q := Qred q in
  match Qnum q with
  | Z0 => Fin 0
  | Zpos n =>
      match binary64_magnitude (Zpos n) (Zpos (Qden q)) with
      | Some r => Fin r
      | None => PInf
      end
  | Zneg n =>
      match binary64_magnitude (Zpos n) (Zpos (Qden q)) with
      | Some r => Fin (- r)
      | None => NInf
      end
  end.

(** The result of an operation, rounded when it is finite. *)
Definition rounded (x : number) : number :=
  match x with
  | Fin q => binary64 q
  | other => other
  end.

(** Binary64 arithmetic, the arithmetic of Python floats: every operation
    rounds its exact result to the nearest binary64 value, [sum] adds from
    left to right starting from 0 (CPython up to 3.11; later versions
    compensate the rounding of float addends), and the literal [0.1] is the
    binary64 value nearest to one tenth.  Integer readings are computed with
    exactly by the source until they meet a float; that gives the same
    results as long as the integers stay below 2^53, where rounding leaves
    them alone. *)
Definition binary64_arithmetic : arithmetic :=
  {| ar_sum := fun xs =>
       fold_left (fun acc x => rounded (num_add acc x)) xs (of_int 0);
     ar_div_len := fun x n => rounded (num_div_len x n);
     ar_sub := fun a b => rounded (num_sub a b);
     ar_mul := fun a b => rounded (num_mul a b);
     ar_add := fun a b => rounded (num_add a b);
     ar_tenth := binary64 0.1 |}.

(** ** The validator over an arithmetic

    The methods that reach the arithmetic, with the arithmetic as a
    parameter; every other method is the one above. *)

(** [_validate_outlier]: the mean of the stored values, then a test against
    the range of the stored values when the mean is below 0.1 in magnitude,
    against a multiple of the mean otherwise. *)
Definition _validate_outlier_with (ar : arithmetic) (self : SensorValidator)
    (sensor_id : string) (value : number) : bool * SensorValidator :=
  match _value_history self !! sensor_id with
  | None => (true, self)
  | Some history =>
      if (length history <? 3)%nat then (true, self)
      else
        match history with
        | [] => (true, self)
        | first :: rest =>
            let mean := ar_div_len ar (ar_sum ar history) (length history) in
            let max_recent := py_max first rest in
            let min_recent := py_min first rest in
            if num_ltb (num_abs mean) (ar_tenth ar) then
              let range_val := ar_sub ar max_recent min_recent in
              let threshold :=
                ar_mul ar range_val (outlier_sensitivity self) in
              if num_gtb (num_abs value)
                   (ar_add ar threshold
                      (py_max (num_abs max_recent) [num_abs min_recent]))
              then reject self sensor_id value
                     (OutlierRecentRange value min_recent max_recent)
              else (true, self)
            else
              let threshold :=
                ar_mul ar (num_abs mean) (outlier_sensitivity self) in
              if num_gtb (num_abs (ar_sub ar value mean)) threshold
              then reject self sensor_id value (OutlierFromMean value mean)
              else (true, self)
        end
  end.

(** [_validate_value]. *)
Definition _validate_value_with (ar : arithmetic) (self : SensorValidator)
    (sensor_id : string) (value : PyValue) (sensor_metadata : metadata)
  : bool * SensorValidator :=
  match value with
  | PyNum x =>
      if _is_modbus_error x
      then reject self sensor_id x ModbusErrorValue
      else if negb (_is_finite x)
      then reject self sensor_id x NonFiniteValue
      else
        let unit := _get_sensor_unit sensor_id sensor_metadata in
        let '(ok, self) := _validate_range self sensor_id x unit in
        if negb ok then (false, self)
        else
          let '(ok, self) := _validate_monotonic self sensor_id x in
          if negb ok then (false, self)
          else
            let '(ok, self) := _validate_outlier_with ar self sensor_id x in
            if negb ok then (false, self) else (true, self)
  | _ => (true, self)
  end.

(** One iteration of the loop of [validate_data]. *)
Definition validate_entry_with (ar : arithmetic) (sensor_metadata : metadata)
    (acc : SensorValidator * list (string * PyValue))
    (entry : string * PyValue) : SensorValidator * list (string * PyValue) :=
  let '(self, validated_data) := acc in
  let '(sensor_id, value) := entry in
  let '(ok, self) :=
    _validate_value_with ar self sensor_id value sensor_metadata in
  if ok then
    (match value with
     | PyNum x => _update_history self sensor_id x
     | _ => self
     end,
     dict_set validated_data sensor_id value)
  else (self, validated_data).

(** [validate_data]. *)
Definition validate_data_with (ar : arithmetic) (self : SensorValidator)
    (data : list (string * PyValue)) (sensor_metadata : metadata)
  : list (string * PyValue) * SensorValidator :=
  if negb (enable_validation self) then (data, self)
  else
    let '(self, validated_data) :=
      fold_left (validate_entry_with ar sensor_metadata) data (self, []) in
    (validated_data, self).

(** A sequence of polling cycles on one validator. *)
Definition run_with (ar : arithmetic) (self : SensorValidator)
    (calls : list (list (string * PyValue) * metadata)) : SensorValidator :=
  fold_left
    (fun s call => snd (validate_data_with ar s (fst call) (snd call)))
    calls self.

(** ** Diagnostics ([get_stats]) *)

(** [ValidationStats.get_stats]: copies of the counters and of the log. *)
Definition ValidationStats_get_stats (st : ValidationStats)
  : gmap string nat * list failure_entry :=
  (rejected_count st, recent_failures st).

(** The dictionary returned by [SensorValidator.get_stats]. *)
Record diagnostics : Type := mkDiagnostics {
  diag_enabled : bool;
  diag_outlier_sensitivity : number;
  diag_custom_ranges_count : nat;
  diag_rejected_count : gmap string nat;
  diag_recent_failures : list failure_entry
}.

(** [SensorValidator.get_stats]. *)
Definition get_stats (self : SensorValidator) : diagnostics :=
  {| diag_enabled := enable_validation self;
     diag_outlier_sensitivity := outlier_sensitivity self;
     diag_custom_ranges_count := size (custom_ranges self);
     diag_rejected_count := fst (ValidationStats_get_stats (stats self));
     diag_recent_failures := snd (ValidationStats_get_stats (stats self)) |}.

(** ** The specification's wording, to compare the code with *)

(** The range tier that applies: construction-time override, then built-in
    per-sensor table, then unit default, then none. *)
Definition resolve_range (self : SensorValidator) (sensor_id : string)
    (unit : option string) : option (number * number) :=
  match custom_ranges self !! sensor_id with
  | Some bounds => Some bounds
  | None =>
      match SENSOR_SPECIFIC_RANGES !! sensor_id with
      | Some bounds => Some bounds
      | None => unit_range unit
      end
  end.

(** The value lies inside the tier that applies, if any. *)
Definition within_resolved_range (self : SensorValidator)
    (sensor_id : string) (unit : option string) (value : number) : Prop :=
  match resolve_range self sensor_id unit with
  | Some bounds => in_bounds bounds value = true
  | None => True
  end.

(** The error sentinels as a set of four codes. *)
Definition sentinel_codes : list Q := [65535; 32767; 32768; -32768]%Q.

(** Sum, mean, maximum and minimum of a list of rationals. *)
Definition Qsum (xs : list Q) : Q := fold_right Qplus 0%Q xs.

Definition Qmean (xs : list Q) : Q :=
  (Qsum xs / inject_Z (Z.of_nat (length xs)))%Q.

Definition Qmax2 (a b : Q) : Q := if Qle_bool a b then b else a.
Definition Qmin2 (a b : Q) : Q := if Qle_bool a b then a else b.

Definition Qmaximum (xs : list Q) : Q :=
  match xs with
  | [] => 0%Q
  | x :: xs' => fold_right Qmax2 x xs'
  end.

Definition Qminimum (xs : list Q) : Q :=
  match xs with
  | [] => 0%Q
  | x :: xs' => fold_right Qmin2 x xs'
  end.

(** The outlier test of section 4.3 on a history of at least three finite
    values. *)
Definition outlier_rule (history : list Q) (sensitivity value : Q) : Prop :=
  let mean := Qmean history in
  let hi := Qmaximum history in
  let lo := Qminimum history in
  if Qltb (Qabs mean) 0.1
  then ((hi - lo) * sensitivity + Qmax2 (Qabs hi) (Qabs lo) < Qabs value)%Q
  else (Qabs mean * sensitivity < Qabs (value - mean))%Q.

(** The outlier test of section 4.3 over an arithmetic, on a history of
    finite values with maximum [hi] and minimum [lo]; [top] is the larger of
    [|hi|] and [|lo|]. *)
Definition outlier_rule_with (ar : arithmetic) (history : list Q)
    (hi lo top : Q) (sensitivity value : number) : bool :=
  let mean :=
    ar_div_len ar (ar_sum ar (Fin <$> history)) (length history) in
  if num_ltb (num_abs mean) (ar_tenth ar)
  then num_gtb (num_abs value)
         (ar_add ar (ar_mul ar (ar_sub ar (Fin hi) (Fin lo)) sensitivity)
            (Fin top))
  else num_gtb (num_abs (ar_sub ar value mean))
         (ar_mul ar (num_abs mean) sensitivity).

(** * Notions used to state and prove the properties *)

(** The tracker after the monotonic step on a finite reading [x]: untouched,
    or overwritten with [x], which then is not below the previous entry. *)
Definition tracker_step (self : SensorValidator) (sid : string) (x : number)
    (base : SensorValidator) : Prop :=
  base = self
  \/ base = set_last_monotonic self
              (<[sid := x]> (_last_monotonic_values self))
     /\ is_monotonic_sensor sid = true
     /\ isfinite x = true
     /\ (forall last, _last_monotonic_values self !! sid = Some last ->
           num_ltb x last = false).

(** Every way [_validate_value] can end. *)
Inductive verdict (self : SensorValidator) (sid : string) (v : PyValue)
  : bool -> SensorValidator -> Prop :=
  | verdict_passthrough :
      is_numeric v = false -> verdict self sid v true self
  | verdict_accept x base :
      v = PyNum x ->
      _is_modbus_error x = false ->
      isfinite x = true ->
      tracker_step self sid x base ->
      (is_monotonic_sensor sid = true ->
       _last_monotonic_values base !! sid = Some x) ->
      verdict self sid v true base
  | verdict_reject x base why :
      v = PyNum x ->
      tracker_step self sid x base ->
      verdict self sid v false
        (set_stats base (record_rejection (stats base) sid x why)).

(** What one sensor can observe of the validator. *)
Record view : Type := mkView {
  view_history : option (list number);
  view_tracker : option number;
  view_count : option nat;
  view_enable : bool;
  view_sensitivity : number;
  view_custom : gmap string (number * number)
}.

(** The view a validator offers to the sensor [sid]. *)
Definition view_of (self : SensorValidator) (sid : string) : view :=
  {| view_history := _value_history self !! sid;
     view_tracker := _last_monotonic_values self !! sid;
     view_count := rejected_count (stats self) !! sid;
     view_enable := enable_validation self;
     view_sensitivity := outlier_sensitivity self;
     view_custom := custom_ranges self |}.

(** The construction-time configuration never changes. *)
Definition config_of (self : SensorValidator)
  : bool * number * gmap string (number * number) :=
  (enable_validation self, outlier_sensitivity self, custom_ranges self).

(** Side conditions on concrete batches. *)
Ltac dict_keys := by apply (bool_decide_unpack _).
Ltac dict_member :=
  repeat first [apply list_elem_of_here | apply list_elem_of_further].

(** The reason the source attaches to a range rejection names the tier. *)
Definition range_reason (self : SensorValidator) (sensor_id : string)
    (unit : option string) (bounds : number * number) : reason :=
  match custom_ranges self !! sensor_id with
  | Some _ => OutsideCustomRange (fst bounds) (snd bounds)
  | None =>
      match SENSOR_SPECIFIC_RANGES !! sensor_id with
      | Some _ => OutsideSensorSpecificRange (fst bounds) (snd bounds)
      | None => OutsideUnitRange (default "" unit) (fst bounds) (snd bounds)
      end
  end.

(** [m] is an element of [l] that bounds it from above. *)
Definition is_maximum (m : Q) (l : list Q) : Prop :=
  In m l /\ forall y, In y l -> (y <= m)%Q.

(** [m] is an element of [l] that bounds it from below. *)
Definition is_minimum (m : Q) (l : list Q) : Prop :=
  In m l /\ forall y, In y l -> (m <= y)%Q.

(** The step of [py_max] on finite readings. *)
Definition keep_greater (acc item : Q) : Q :=
  if Qltb acc item then item else acc.

(** The step of [py_min] on finite readings. *)
Definition keep_smaller (acc item : Q) : Q :=
  if Qltb item acc then item else acc.

(** [rejected_count.get(sid, 0)]. *)
Definition count (self : SensorValidator) (sid : string) : nat :=
  default 0%nat (rejected_count (stats self) !! sid).

(** Both containers respect their caps. *)
Definition bounded (self : SensorValidator) : Prop :=
  (forall sid h, _value_history self !! sid = Some h ->
     (length h <= _max_history)%nat)
  /\ (length (recent_failures (stats self)) <= max_recent_failures)%nat.

(** The validator after the loop iteration that handles [(sid, v)]. *)
Definition after_entry (md : metadata) (self : SensorValidator)
    (sid : string) (v : PyValue) : SensorValidator :=
  fst (validate_entry md (self, []) (sid, v)).

(** The tracker of [sid] holds a finite value not below [v]. *)
Definition tracker_at_least (sid : string) (v : Q) (self : SensorValidator)
  : Prop :=
  exists t, _last_monotonic_values self !! sid = Some (Fin t) /\ (v <= t)%Q.

(** The checks that precede the outlier check all pass. *)
Definition reaches_outlier (self : SensorValidator) (sid : string)
    (x : number) (md : metadata) : bool :=
  negb (_is_modbus_error x) && _is_finite x
  && fst (_validate_range self sid x (_get_sensor_unit sid md))
  && fst (_validate_monotonic self sid x).

(** The validator once the monotonic step has run on [x]. *)
Definition after_monotonic (self : SensorValidator) (sid : string)
    (x : number) (md : metadata) : SensorValidator :=
  if reaches_outlier self sid x md && is_monotonic_sensor sid
  then set_last_monotonic self (<[sid := x]> (_last_monotonic_values self))
  else self.

(** A value the pipeline lets through its first two checks. *)
Definition storable (x : number) : Prop :=
  isfinite x = true /\ _is_modbus_error x = false.

(** The sum of all rejection counters. *)
Definition total_rejections (st : ValidationStats) : nat :=
  map_fold (fun _ n acc => (n + acc)%nat) 0%nat (rejected_count st).

(** The log entries of one sensor. *)
Definition failures_of (sid : string) (log : list failure_entry)
  : list failure_entry :=
  List.filter (fun e => String.eqb (f_sensor_id e) sid) log.

(** What the stored readings of a monotonic sensor look like: finite,
    non-decreasing, and none above the tracked value. *)
Definition ascending_history (w : view) : Prop :=
  forall h, view_history w = Some h ->
    exists hq tq,
      h = Fin <$> hq
      /\ view_tracker w = Some (Fin tq)
      /\ StronglySorted Qle hq
      /\ Forall (fun y => (y <= tq)%Q) hq.

(** The log holds the latest rejections, as many as were counted up to its
    capacity, and no more entries of a sensor than that sensor's counter. *)
Definition log_matches_counters (self : SensorValidator) : Prop :=
  length (recent_failures (stats self))
    = Nat.min max_recent_failures (total_rejections (stats self))
  /\ forall sid,
       (length (failures_of sid (recent_failures (stats self)))
        <= count self sid)%nat.

(** The sensor's stored history holds at least three readings, all zero. *)
Definition zero_history (w : view) : Prop :=
  exists hq,
    view_history w = Some (Fin <$> hq)
    /\ (3 <= length hq)%nat
    /\ Forall (fun y => (y == 0)%Q) hq.

(** The binary64 value a decimal literal denotes. *)
Definition nearest_float (q : Q) : Q :=
  match binary64 q with
  | Fin r => r
  | _ => q
  end.

(** The validator after the float readings [readings] of one sensor, one
    per polling cycle. *)
Definition after_readings (ar : arithmetic) (sensitivity : Q)
    (sensor_id : string) (readings : list Q) : SensorValidator :=
  run_with ar (SensorValidator_init true (Fin (nearest_float sensitivity)) None)
    ((fun r => ([(sensor_id, PyNum (Fin (nearest_float r)))], None)) <$> readings).

(** * Properties *)

(** ** Numbers *)

Lemma Qltb_lt (a b : Q) : Qltb a b = true <-> (a < b)%Q.
Proof.
  unfold Qltb. rewrite negb_true_iff, <- not_true_iff_false, Qle_bool_iff.
  split; [apply Qnot_le_lt | apply Qlt_not_le].
Qed.

Lemma Qltb_ge (a b : Q) : Qltb a b = false <-> (b <= a)%Q.
Proof.
  unfold Qltb. rewrite negb_false_iff. apply Qle_bool_iff.
Qed.

Lemma num_ltb_fin (a b : Q) : num_ltb (Fin a) (Fin b) = Qltb a b.
Proof. reflexivity. Qed.

(** ** Rounding to binary64 *)

(** Rounding does not depend on how the rational is written. *)
Lemma binary64_comp (q q' : Q) : (q == q')%Q -> binary64 q = binary64 q'.
Proof.
  intros Heq. unfold binary64. by rewrite (Qred_complete q q' Heq).
Qed.

(** Rounding is symmetric around zero. *)
Lemma binary64_opp (q : Q) : binary64 (- q) = num_neg (binary64 q).
Proof.
  unfold binary64. cbv zeta. rewrite Qred_opp.
  destruct (Qred q) as [[|n|n] d]; cbn [Qopp Qnum Qden].
  - reflexivity.
  - change (- Z.pos n)%Z with (Z.neg n). cbv iota.
    destruct (binary64_magnitude (Z.pos n) (Z.pos d)) as [r|]; reflexivity.
  - change (- Z.neg n)%Z with (Z.pos n). cbv iota.
    destruct (binary64_magnitude (Z.pos n) (Z.pos d)) as [r|];
      cbn [num_neg]; [|reflexivity].
    f_equal. destruct r as [a b]. unfold Qopp. cbn [Qnum Qden].
    by rewrite Z.opp_involutive.
Qed.

(** Values of the rounding: decimal fractions, the integers around 2^53,
    the largest finite value, and the smallest values above zero. *)
Lemma binary64_values :
  binary64 0.1 = Fin (3602879701896397 # 36028797018963968)
  /\ binary64 (1 # 3) = Fin (6004799503160661 # 18014398509481984)
  /\ binary64 931.2 = Fin (4095460911140045 # 4398046511104)
  /\ binary64 (inject_Z 700) = Fin (inject_Z 700)
  /\ binary64 (inject_Z (2 ^ 53 + 1)) = Fin (inject_Z (2 ^ 53))
  /\ binary64 (inject_Z (2 ^ 53 + 3)) = Fin (inject_Z (2 ^ 53 + 4))
  /\ binary64 (inject_Z (2 ^ 1024 - 2 ^ 970 - 1))
     = Fin (inject_Z (2 ^ 1024 - 2 ^ 971))
  /\ binary64 (inject_Z (2 ^ 1024 - 2 ^ 970)) = PInf
  /\ binary64 (- inject_Z (2 ^ 1024)) = NInf
  /\ binary64 (1 # 2 ^ 1075) = Fin 0
  /\ binary64 (3 # 2 ^ 1075) = Fin (1 # 2 ^ 1073).
Proof. vm_compute. repeat split; reflexivity. Qed.

(** ** What each check does to the validator *)

Lemma _validate_range_cases self sid x unit :
  _validate_range self sid x unit = (true, self)
  \/ exists why,
       why <> ModbusErrorValue
       /\ _validate_range self sid x unit = reject self sid x why.
Proof.
  unfold _validate_range.
  repeat case_match;
    first [by left | right; eexists; split; [|reflexivity]; discriminate].
Qed.

Lemma _validate_outlier_cases self sid x :
  _validate_outlier self sid x = (true, self)
  \/ exists why,
       why <> ModbusErrorValue
       /\ _validate_outlier self sid x = reject self sid x why.
Proof.
  unfold _validate_outlier.
  repeat case_match;
    first [by left | right; eexists; split; [|reflexivity]; discriminate].
Qed.

Lemma _validate_monotonic_cases self sid x :
  _validate_monotonic self sid x = (true, self)
     /\ is_monotonic_sensor sid = false
  \/ _validate_monotonic self sid x =
       (true,
        set_last_monotonic self
          (<[sid := x]> (_last_monotonic_values self)))
     /\ is_monotonic_sensor sid = true
     /\ (forall last, _last_monotonic_values self !! sid = Some last ->
           num_ltb x last = false)
  \/ exists last,
       _validate_monotonic self sid x =
         reject self sid x (MonotonicDecreased last x)
       /\ is_monotonic_sensor sid = true
       /\ _last_monotonic_values self !! sid = Some last
       /\ num_ltb x last = true.
Proof.
  unfold _validate_monotonic.
  destruct (is_monotonic_sensor sid) eqn:Hm; simpl; [|by left].
  destruct (_last_monotonic_values self !! sid) as [last|] eqn:Hl.
  - destruct (num_ltb x last) eqn:Hlt.
    + right; right. by exists last.
    + right; left. repeat split. intros ? [= <-]. done.
  - right; left. repeat split. intros ? [=].
Qed.

Lemma _validate_value_verdict self sid v md :
  verdict self sid v (fst (_validate_value self sid v md))
    (snd (_validate_value self sid v md)).
Proof.
  destruct v as [| b | x | s | r]; simpl; try by constructor.
  destruct (_is_modbus_error x) eqn:Herr.
  { apply verdict_reject with (x := x) (base := self); [done | by left]. }
  unfold _is_finite.
  destruct (isfinite x) eqn:Hfin; simpl.
  2: { apply verdict_reject with (x := x) (base := self); [done | by left]. }
  destruct (_validate_range_cases self sid x (_get_sensor_unit sid md))
    as [-> | (why & _ & ->)]; simpl.
  2: { apply verdict_reject with (x := x) (base := self); [done | by left]. }
  destruct (_validate_monotonic_cases self sid x)
    as [[-> Hm] | [(-> & Hm & Hlast) | (last & -> & Hm & Hl & Hlt)]]; simpl.
  - destruct (_validate_outlier_cases self sid x)
      as [-> | (why & _ & ->)]; simpl.
    + apply verdict_accept with (x := x); auto; [by left | congruence].
    + apply verdict_reject with (x := x) (base := self); [done | by left].
  - set (base := set_last_monotonic self _).
    assert (tracker_step self sid x base) as Hstep by (right; done).
    destruct (_validate_outlier_cases base sid x)
      as [-> | (why & _ & ->)]; simpl.
    + apply verdict_accept with (x := x); auto.
      intros _. subst base. simpl. apply lookup_insert_eq.
    + by apply (verdict_reject self sid (PyNum x) x base why).
  - apply verdict_reject with (x := x) (base := self); [done | by left].
Qed.

(** ** Dictionaries *)

Lemma dict_get_set_eq {A} (d : list (string * A)) k v :
  dict_get (dict_set d k v) k = Some v.
Proof.
  unfold dict_get. induction d as [|[k' v'] d IH]; simpl.
  - by rewrite String.eqb_refl.
  - destruct (String.eqb k' k) eqn:E; simpl; rewrite E; [done | exact IH].
Qed.

Lemma dict_get_set_ne {A} (d : list (string * A)) k k' v :
  k <> k' -> dict_get (dict_set d k v) k' = dict_get d k'.
Proof.
  intros Hne. unfold dict_get. induction d as [|[k0 v0] d IH]; simpl.
  - by apply String.eqb_neq in Hne as ->.
  - destruct (String.eqb k0 k) eqn:E; simpl.
    + apply String.eqb_eq in E as ->.
      by apply String.eqb_neq in Hne as ->.
    + destruct (String.eqb k0 k'); [done | exact IH].
Qed.

Lemma dict_get_app_notin {A} (l1 l2 : list (string * A)) k :
  k ∉ l1.*1 -> dict_get (l1 ++ l2) k = dict_get l2 k.
Proof.
  unfold dict_get. induction l1 as [|[k0 v0] l1 IH]; simpl; [done|].
  intros Hn. apply not_elem_of_cons in Hn as [Hne Hn].
  apply not_eq_sym, String.eqb_neq in Hne. rewrite Hne. by apply IH.
Qed.

Lemma dict_get_cons_eq {A} (l : list (string * A)) k v :
  dict_get ((k, v) :: l) k = Some v.
Proof. unfold dict_get. simpl. by rewrite String.eqb_refl. Qed.

(** A key of a dictionary splits it around its only entry. *)
Lemma dict_split {A} (data : list (string * A)) k v :
  NoDup (data.*1) -> (k, v) ∈ data ->
  exists l1 l2, data = l1 ++ ((k, v) :: l2) /\ (k ∉ l1.*1) /\ (k ∉ l2.*1).
Proof.
  intros Hnd Hin.
  apply list_elem_of_split in Hin as (l1 & l2 & ->).
  exists l1, l2. split; [done|].
  rewrite fmap_app, fmap_cons in Hnd. simpl in Hnd.
  apply NoDup_app in Hnd as (_ & Hdisj & Hnd2).
  apply NoDup_cons in Hnd2 as [Hn2 _].
  split; [|done].
  intros Hk. apply (Hdisj k Hk). by left.
Qed.

Lemma dict_get_member {A} (data : list (string * A)) k v :
  NoDup (data.*1) -> (k, v) ∈ data -> dict_get data k = Some v.
Proof.
  intros Hnd Hin.
  destruct (dict_split data k v Hnd Hin) as (l1 & l2 & -> & Hn1 & _).
  rewrite dict_get_app_notin by done. apply dict_get_cons_eq.
Qed.

(** ** The loop body of [validate_data] *)

Lemma validate_entry_eq md self out sid v :
  validate_entry md (self, out) (sid, v) =
    let r := _validate_value self sid v md in
    if fst r
    then (match v with
          | PyNum x => _update_history (snd r) sid x
          | _ => snd r
          end, dict_set out sid v)
    else (snd r, out).
Proof.
  unfold validate_entry. by destruct (_validate_value self sid v md).
Qed.

Lemma validate_data_enabled self data md :
  enable_validation self = true ->
  validate_data self data md =
    (snd (fold_left (validate_entry md) data (self, [])),
     fst (fold_left (validate_entry md) data (self, []))).
Proof.
  intros He. unfold validate_data. rewrite He. simpl.
  by destruct (fold_left _ _ _).
Qed.

Lemma validate_data_state self data md :
  snd (validate_data self data md) =
    if enable_validation self
    then fst (fold_left (validate_entry md) data (self, []))
    else self.
Proof.
  unfold validate_data.
  destruct (enable_validation self); simpl; [|done].
  by destruct (fold_left _ _ _).
Qed.

Lemma tracker_step_view self k x base sid :
  k <> sid -> tracker_step self k x base ->
  view_of base sid = view_of self sid.
Proof.
  intros Hne [-> | (-> & _)]; [done|].
  unfold view_of; simpl. by rewrite lookup_insert_ne.
Qed.

Lemma verdict_view self k v ok s' sid :
  k <> sid -> verdict self k v ok s' -> view_of s' sid = view_of self sid.
Proof.
  intros Hne Hv.
  destruct Hv as [Hnum | x base Hx Herr Hfin Hstep _ | x base why Hx Hstep].
  - done.
  - by eapply tracker_step_view.
  - rewrite <- (tracker_step_view self k x base sid Hne Hstep).
    unfold view_of; simpl. by rewrite lookup_insert_ne.
Qed.

Lemma _update_history_view self k x sid :
  k <> sid -> view_of (_update_history self k x) sid = view_of self sid.
Proof.
  intros Hne. unfold view_of, _update_history; simpl.
  by rewrite lookup_insert_ne.
Qed.

(** An entry for another sensor changes neither this sensor's view nor its
    slot of the output. *)
Lemma validate_entry_other md self out k v sid :
  k <> sid ->
  view_of (fst (validate_entry md (self, out) (k, v))) sid = view_of self sid
  /\ dict_get (snd (validate_entry md (self, out) (k, v))) sid
     = dict_get out sid.
Proof.
  intros Hne. rewrite validate_entry_eq.
  pose proof (_validate_value_verdict self k v md) as Hv.
  apply (verdict_view _ _ _ _ _ sid Hne) in Hv.
  cbv zeta. destruct (fst (_validate_value self k v md)); simpl.
  - split; [|by apply dict_get_set_ne].
    destruct v; try done. by rewrite _update_history_view.
  - done.
Qed.

Lemma validate_loop_other md data sid : forall self out,
  sid ∉ data.*1 ->
  view_of (fst (fold_left (validate_entry md) data (self, out))) sid
    = view_of self sid
  /\ dict_get (snd (fold_left (validate_entry md) data (self, out))) sid
     = dict_get out sid.
Proof.
  induction data as [|[k v] data IH]; intros self out Hn; [done|].
  rewrite fmap_cons in Hn. apply not_elem_of_cons in Hn as [Hne Hn].
  cbn [fold_left].
  destruct (validate_entry_other md self out k v sid) as [Hv Hd];
    [by apply not_eq_sym|].
  destruct (validate_entry md (self, out) (k, v)) as [s1 o1].
  destruct (IH s1 o1 Hn) as [Hv' Hd']. by rewrite Hv', Hd'.
Qed.

(** ** Error sentinels *)

Lemma sentinel_codes_table (e : Q) :
  In e MODBUS_ERROR_VALUES <-> e ∈ sentinel_codes.
Proof.
  unfold MODBUS_ERROR_VALUES, sentinel_codes.
  rewrite !elem_of_cons, elem_of_nil. simpl. intuition.
Qed.

Lemma _is_modbus_error_fin (q : Q) :
  _is_modbus_error (Fin q) = true <->
  exists e, e ∈ sentinel_codes /\ (q == e \/ Qabs (q - e) < 0.01)%Q.
Proof.
  unfold _is_modbus_error.
  rewrite orb_true_iff, !existsb_exists. split.
  - intros [(e & He & Heq) | (e & He & Hlt)]; exists e;
      (split; [by apply sentinel_codes_table|]).
    + left. by apply Qeq_bool_iff.
    + right. by apply Qltb_lt.
  - intros (e & He & [Heq | Hlt]); [left | right]; exists e;
      (split; [by apply sentinel_codes_table|]).
    + by apply Qeq_bool_iff.
    + by apply Qltb_lt.
Qed.

Lemma _is_modbus_error_nonfinite (x : number) :
  isfinite x = false -> _is_modbus_error x = false.
Proof. by destruct x. Qed.

Lemma _is_modbus_error_far (q : Q) :
  (forall e, e ∈ sentinel_codes -> (0.01 <= Qabs (q - e))%Q) ->
  _is_modbus_error (Fin q) = false.
Proof.
  intros Hfar. apply not_true_iff_false. rewrite _is_modbus_error_fin.
  intros (e & He & [Heq | Hlt]).
  - specialize (Hfar e He).
    assert (Qabs (q - e) == 0)%Q as H0.
    { rewrite Heq. unfold Qminus. by rewrite Qplus_opp_r. }
    rewrite H0 in Hfar. by apply Qle_bool_iff in Hfar.
  - by apply Qlt_not_le in Hlt; apply Hlt, Hfar.
Qed.

(** ** Properties kept by every polling cycle

    A property of the validator that survives the three writes of the source
    (the tracker assignment of [_validate_monotonic], [record_rejection], and
    [_update_history]) survives [validate_data] and any sequence of cycles. *)
Section Preservation.

Variable P : SensorValidator -> Prop.

Hypothesis P_tracker : forall self sid x,
  isfinite x = true ->
  (forall last, _last_monotonic_values self !! sid = Some last ->
     num_ltb x last = false) ->
  P self ->
  P (set_last_monotonic self (<[sid := x]> (_last_monotonic_values self))).

Hypothesis P_rejection : forall self sid x why,
  P self -> P (set_stats self (record_rejection (stats self) sid x why)).

Hypothesis P_history : forall self sid x,
  isfinite x = true -> P self -> P (_update_history self sid x).

Lemma tracker_step_preserves self sid x base :
  tracker_step self sid x base -> P self -> P base.
Proof.
  intros [-> | (-> & _ & Hfin & Hlast)] HP; [done|]. by apply P_tracker.
Qed.

Lemma verdict_preserves self sid v ok s' :
  verdict self sid v ok s' -> P self -> P s'.
Proof.
  intros [Hnum | x base Hx Herr Hfin Hstep _ | x base why Hx Hstep] HP.
  - done.
  - by eapply tracker_step_preserves.
  - apply P_rejection. by eapply tracker_step_preserves.
Qed.

Lemma validate_entry_preserves md self out entry :
  P self -> P (fst (validate_entry md (self, out) entry)).
Proof.
  intros HP. destruct entry as [sid v]. rewrite validate_entry_eq.
  pose proof (_validate_value_verdict self sid v md) as Hv. cbv zeta.
  destruct (fst (_validate_value self sid v md)) eqn:Hok; simpl.
  - pose proof (verdict_preserves _ _ _ _ _ Hv HP) as HP'.
    destruct v as [| b | x | s | r]; try done.
    apply P_history; [|done].
    inversion Hv; subst; [done | congruence].
  - by eapply verdict_preserves.
Qed.

Lemma validate_loop_preserves md data : forall self out,
  P self -> P (fst (fold_left (validate_entry md) data (self, out))).
Proof.
  induction data as [|entry data IH]; intros self out HP; [done|].
  cbn [fold_left].
  pose proof (validate_entry_preserves md self out entry HP) as HP'.
  destruct (validate_entry md (self, out) entry) as [s1 o1].
  by apply IH.
Qed.

Lemma validate_data_preserves self data md :
  P self -> P (snd (validate_data self data md)).
Proof.
  intros HP. rewrite validate_data_state.
  destruct (enable_validation self); [|done].
  by apply validate_loop_preserves.
Qed.

Lemma run_preserves calls : forall self, P self -> P (run self calls).
Proof.
  unfold run. induction calls as [|[data md] calls IH]; intros self HP;
    [done|].
  cbn [fold_left]. apply IH. by apply validate_data_preserves.
Qed.

End Preservation.

Lemma run_config calls self : config_of (run self calls) = config_of self.
Proof.
  by apply (run_preserves (fun s => config_of s = config_of self)).
Qed.

Lemma validate_loop_at md self l1 sid v l2 :
  fold_left (validate_entry md) (l1 ++ (sid, v) :: l2) (self, []) =
  fold_left (validate_entry md) l2
    (validate_entry md (fold_left (validate_entry md) l1 (self, []))
       (sid, v)).
Proof. by rewrite fold_left_app. Qed.

(** The state in which the entry of [sid] is processed offers [sid] the same
    view as the state before the cycle, and the output has no slot for
    [sid] yet. *)
Lemma validate_loop_before md self l1 sid :
  sid ∉ l1.*1 ->
  exists s1 o1,
    fold_left (validate_entry md) l1 (self, []) = (s1, o1)
    /\ view_of s1 sid = view_of self sid
    /\ dict_get o1 sid = None.
Proof.
  intros Hn. destruct (validate_loop_other md l1 sid self [] Hn) as [Hv Hd].
  destruct (fold_left _ l1 _) as [s1 o1]. by exists s1, o1.
Qed.

(** ** Disabled validation and pass-through values *)

(** C3. With [enable_validation] false, [validate_data] returns its input
    mapping unchanged and leaves the validator as it was: rolling history,
    monotonic trackers, rejection counters and failure log are the same
    before and after the call, whatever the batch holds. *)
Theorem disabled_validation_is_identity
    (self : SensorValidator) (data : list (string * PyValue))
    (md : metadata) :
  enable_validation self = false ->
  let result := validate_data self data md in
  fst result = data
  /\ snd result = self
  /\ _value_history (snd result) = _value_history self
  /\ _last_monotonic_values (snd result) = _last_monotonic_values self
  /\ rejected_count (stats (snd result)) = rejected_count (stats self)
  /\ recent_failures (stats (snd result)) = recent_failures (stats self).
Proof.
  intros Hoff. unfold validate_data. rewrite Hoff. simpl. tauto.
Qed.

Lemma disabled_validation_is_identity_witness :
  let self := SensorValidator_init false (of_int 5) None in
  let data := [("vgrid", PyNum (of_int 65535)); ("work_mode", PyStr "ok")] in
  fst (validate_data self data None) = data
  /\ snd (validate_data self data None) = self.
Proof.
  intros self data.
  pose proof (disabled_validation_is_identity self data None eq_refl) as H.
  split; [exact (proj1 H) | exact (proj1 (proj2 H))].
Defined.

(** C8. A value that is null, text, boolean or of any other non-numeric type
    is accepted: its key is in the output of [validate_data] with the value
    unchanged; the sensor's history, tracker and rejection counter are what
    they were before the call; and the loop iteration that handles the entry
    leaves the whole validator, failure log included, untouched. *)
Theorem non_numeric_value_passes_through
    (self : SensorValidator) (data : list (string * PyValue))
    (md : metadata) (sid : string) (v : PyValue) :
  is_numeric v = false ->
  NoDup (data.*1) ->
  (sid, v) ∈ data ->
  dict_get (fst (validate_data self data md)) sid = Some v
  /\ view_of (snd (validate_data self data md)) sid = view_of self sid
  /\ (forall s out,
        validate_entry md (s, out) (sid, v) = (s, dict_set out sid v)).
Proof.
  intros Hnum Hnd Hin.
  assert (forall s out,
            validate_entry md (s, out) (sid, v) = (s, dict_set out sid v))
    as Hentry.
  { intros s out. rewrite validate_entry_eq. by destruct v. }
  destruct (enable_validation self) eqn:Hen.
  - rewrite validate_data_enabled by done. simpl.
    destruct (dict_split data sid v Hnd Hin) as (l1 & l2 & -> & Hn1 & Hn2).
    rewrite validate_loop_at.
    destruct (validate_loop_before md self l1 sid Hn1)
      as (s1 & o1 & -> & Hv1 & _).
    rewrite Hentry.
    destruct (validate_loop_other md l2 sid s1 (dict_set o1 sid v) Hn2)
      as [Hv2 Hd2].
    rewrite Hd2, Hv2, Hv1, dict_get_set_eq. done.
  - unfold validate_data. rewrite Hen. simpl.
    split; [by apply dict_get_member | done].
Qed.

Lemma non_numeric_value_passes_through_witness :
  let self := SensorValidator_init true (of_int 5) None in
  let data := [("vgrid", PyNum (of_int 230)); ("work_mode", PyNone)] in
  dict_get (fst (validate_data self data None)) "work_mode" = Some PyNone.
Proof.
  intros self data.
  refine (proj1 (non_numeric_value_passes_through
                   self data None "work_mode" PyNone eq_refl _ _)).
  - dict_keys.
  - dict_member.
Defined.

(** ** Range tiers *)

Lemma _validate_range_resolved self sid x unit :
  _validate_range self sid x unit =
    match resolve_range self sid unit with
    | None => (true, self)
    | Some bounds =>
        if in_bounds bounds x then (true, self)
        else reject self sid x (range_reason self sid unit bounds)
    end.
Proof.
  unfold _validate_range, resolve_range, range_reason.
  destruct (custom_ranges self !! sid) as [[lo hi]|].
  { by destruct (in_bounds (lo, hi) x). }
  destruct (SENSOR_SPECIFIC_RANGES !! sid) as [[lo hi]|].
  { by destruct (in_bounds (lo, hi) x). }
  destruct unit as [u|]; [|done]. simpl.
  destruct (String.eqb u ""); [done|].
  destruct (DEFAULT_RANGES !! u) as [[lo hi]|]; [|done].
  by destruct (in_bounds (lo, hi) x).
Qed.

Lemma _validate_range_within self sid x unit :
  within_resolved_range self sid unit x ->
  _validate_range self sid x unit = (true, self).
Proof.
  unfold within_resolved_range. rewrite _validate_range_resolved.
  destruct (resolve_range self sid unit); [|done]. by intros ->.
Qed.

Lemma within_resolved_range_view s1 s2 sid unit x :
  view_of s1 sid = view_of s2 sid ->
  within_resolved_range s1 sid unit x -> within_resolved_range s2 sid unit x.
Proof.
  intros Hv. injection Hv as _ _ _ _ _ Hcustom.
  unfold within_resolved_range, resolve_range. by rewrite Hcustom.
Qed.

(** ** Outlier check *)

Lemma _validate_outlier_view s1 s2 sid x :
  view_of s1 sid = view_of s2 sid ->
  fst (_validate_outlier s1 sid x) = fst (_validate_outlier s2 sid x).
Proof.
  intros Hv. injection Hv as Hhist _ _ _ Hsens _.
  unfold _validate_outlier. rewrite Hhist, Hsens.
  repeat case_match; done.
Qed.

Lemma _validate_monotonic_skip self sid x :
  is_monotonic_sensor sid = false ->
  _validate_monotonic self sid x = (true, self).
Proof. intros Hm. unfold _validate_monotonic. by rewrite Hm. Qed.

(** ** The validator over an arithmetic *)

(** With exact arithmetic the parametrised methods are the exact ones. *)
Lemma _validate_outlier_exact self sid x :
  _validate_outlier_with exact_arithmetic self sid x
  = _validate_outlier self sid x.
Proof. reflexivity. Qed.

Lemma _validate_value_exact self sid v md :
  _validate_value_with exact_arithmetic self sid v md
  = _validate_value self sid v md.
Proof. reflexivity. Qed.

Lemma validate_data_exact self data md :
  validate_data_with exact_arithmetic self data md
  = validate_data self data md.
Proof. reflexivity. Qed.

Lemma run_exact self calls :
  run_with exact_arithmetic self calls = run self calls.
Proof. reflexivity. Qed.

Section Arithmetic.

Variable ar : arithmetic.

Lemma _validate_outlier_with_cases self sid x :
  _validate_outlier_with ar self sid x = (true, self)
  \/ exists why,
       why <> ModbusErrorValue
       /\ _validate_outlier_with ar self sid x = reject self sid x why.
Proof.
  unfold _validate_outlier_with.
  repeat case_match;
    first [by left | right; eexists; split; [|reflexivity]; discriminate].
Qed.

Lemma _validate_outlier_with_pass self sid x :
  fst (_validate_outlier_with ar self sid x) = true ->
  _validate_outlier_with ar self sid x = (true, self).
Proof.
  destruct (_validate_outlier_with_cases self sid x)
    as [-> | (why & _ & ->)]; [done | discriminate].
Qed.

(** The verdict of the outlier check depends on the stored history of the
    sensor and on the sensitivity, and on nothing else of the validator. *)
Lemma _validate_outlier_with_frame s1 s2 sid x :
  _value_history s1 !! sid = _value_history s2 !! sid ->
  outlier_sensitivity s1 = outlier_sensitivity s2 ->
  fst (_validate_outlier_with ar s1 sid x)
  = fst (_validate_outlier_with ar s2 sid x).
Proof.
  intros Hh Hs. unfold _validate_outlier_with. rewrite Hh, Hs.
  repeat case_match; done.
Qed.

Lemma _validate_outlier_with_view s1 s2 sid x :
  view_of s1 sid = view_of s2 sid ->
  fst (_validate_outlier_with ar s1 sid x)
  = fst (_validate_outlier_with ar s2 sid x).
Proof.
  intros Hv. injection Hv as Hhist _ _ _ Hsens _.
  by apply _validate_outlier_with_frame.
Qed.

Lemma _validate_value_with_verdict self sid v md :
  verdict self sid v (fst (_validate_value_with ar self sid v md))
    (snd (_validate_value_with ar self sid v md)).
Proof.
  destruct v as [| b | x | s | r]; simpl; try by constructor.
  destruct (_is_modbus_error x) eqn:Herr.
  { apply verdict_reject with (x := x) (base := self); [done | by left]. }
  unfold _is_finite.
  destruct (isfinite x) eqn:Hfin; simpl.
  2: { apply verdict_reject with (x := x) (base := self); [done | by left]. }
  destruct (_validate_range_cases self sid x (_get_sensor_unit sid md))
    as [-> | (why & _ & ->)]; simpl.
  2: { apply verdict_reject with (x := x) (base := self); [done | by left]. }
  destruct (_validate_monotonic_cases self sid x)
    as [[-> Hm] | [(-> & Hm & Hlast) | (last & -> & Hm & Hl & Hlt)]]; simpl.
  - destruct (_validate_outlier_with_cases self sid x)
      as [-> | (why & _ & ->)]; simpl.
    + apply verdict_accept with (x := x); auto; [by left | congruence].
    + apply verdict_reject with (x := x) (base := self); [done | by left].
  - set (base := set_last_monotonic self _).
    assert (tracker_step self sid x base) as Hstep by (right; done).
    destruct (_validate_outlier_with_cases base sid x)
      as [-> | (why & _ & ->)]; simpl.
    + apply verdict_accept with (x := x); auto.
      intros _. subst base. simpl. apply lookup_insert_eq.
    + by apply (verdict_reject self sid (PyNum x) x base why).
  - apply verdict_reject with (x := x) (base := self); [done | by left].
Qed.

Lemma validate_entry_with_eq md self out sid v :
  validate_entry_with ar md (self, out) (sid, v) =
    let r := _validate_value_with ar self sid v md in
    if fst r
    then (match v with
          | PyNum x => _update_history (snd r) sid x
          | _ => snd r
          end, dict_set out sid v)
    else (snd r, out).
Proof.
  unfold validate_entry_with.
  by destruct (_validate_value_with ar self sid v md).
Qed.

Lemma validate_data_with_enabled self data md :
  enable_validation self = true ->
  validate_data_with ar self data md =
    (snd (fold_left (validate_entry_with ar md) data (self, [])),
     fst (fold_left (validate_entry_with ar md) data (self, []))).
Proof.
  intros He. unfold validate_data_with. rewrite He. simpl.
  by destruct (fold_left _ _ _).
Qed.

Lemma validate_data_with_state self data md :
  snd (validate_data_with ar self data md) =
    if enable_validation self
    then fst (fold_left (validate_entry_with ar md) data (self, []))
    else self.
Proof.
  unfold validate_data_with.
  destruct (enable_validation self); simpl; [|done].
  by destruct (fold_left _ _ _).
Qed.

Lemma validate_entry_with_other md self out k v sid :
  k <> sid ->
  view_of (fst (validate_entry_with ar md (self, out) (k, v))) sid
    = view_of self sid
  /\ dict_get (snd (validate_entry_with ar md (self, out) (k, v))) sid
     = dict_get out sid.
Proof.
  intros Hne. rewrite validate_entry_with_eq.
  pose proof (_validate_value_with_verdict self k v md) as Hv.
  apply (verdict_view _ _ _ _ _ sid Hne) in Hv.
  cbv zeta. destruct (fst (_validate_value_with ar self k v md)); simpl.
  - split; [|by apply dict_get_set_ne].
    destruct v; try done. by rewrite _update_history_view.
  - done.
Qed.

Lemma validate_loop_with_other md data sid : forall self out,
  sid ∉ data.*1 ->
  view_of (fst (fold_left (validate_entry_with ar md) data (self, out))) sid
    = view_of self sid
  /\ dict_get (snd (fold_left (validate_entry_with ar md) data (self, out)))
       sid
     = dict_get out sid.
Proof.
  induction data as [|[k v] data IH]; intros self out Hn; [done|].
  rewrite fmap_cons in Hn. apply not_elem_of_cons in Hn as [Hne Hn].
  cbn [fold_left].
  destruct (validate_entry_with_other md self out k v sid) as [Hv Hd];
    [by apply not_eq_sym|].
  destruct (validate_entry_with ar md (self, out) (k, v)) as [s1 o1].
  destruct (IH s1 o1 Hn) as [Hv' Hd']. by rewrite Hv', Hd'.
Qed.

Lemma validate_loop_with_before md self l1 sid :
  sid ∉ l1.*1 ->
  exists s1 o1,
    fold_left (validate_entry_with ar md) l1 (self, []) = (s1, o1)
    /\ view_of s1 sid = view_of self sid
    /\ dict_get o1 sid = None.
Proof.
  intros Hn.
  destruct (validate_loop_with_other md l1 sid self [] Hn) as [Hv Hd].
  destruct (fold_left _ l1 _) as [s1 o1]. by exists s1, o1.
Qed.

(** A property kept by the three writes of the source is kept by every
    cycle, whatever the arithmetic. *)
Lemma run_with_preserves (P : SensorValidator -> Prop) :
  (forall self sid x,
     isfinite x = true ->
     (forall last, _last_monotonic_values self !! sid = Some last ->
        num_ltb x last = false) ->
     P self ->
     P (set_last_monotonic self
          (<[sid := x]> (_last_monotonic_values self)))) ->
  (forall self sid x why,
     P self -> P (set_stats self (record_rejection (stats self) sid x why))) ->
  (forall self sid x,
     isfinite x = true -> P self -> P (_update_history self sid x)) ->
  forall calls self, P self -> P (run_with ar self calls).
Proof.
  intros Ht Hr Hh.
  assert (forall md self out entry,
            P self -> P (fst (validate_entry_with ar md (self, out) entry)))
    as Hentry.
  { intros md self out [sid v] HP. rewrite validate_entry_with_eq.
    pose proof (_validate_value_with_verdict self sid v md) as Hv. cbv zeta.
    pose proof (verdict_preserves P Ht Hr _ _ _ _ _ Hv HP) as HP'.
    destruct (fst (_validate_value_with ar self sid v md)) eqn:Hok; simpl;
      [|done].
    destruct v as [| b | x | s | r]; try done.
    apply Hh; [|done].
    inversion Hv; subst; [done | congruence]. }
  assert (forall md data self out,
            P self ->
            P (fst (fold_left (validate_entry_with ar md) data (self, out))))
    as Hloop.
  { intros md data. induction data as [|entry data IH]; intros self out HP;
      [done|].
    cbn [fold_left].
    pose proof (Hentry md self out entry HP) as HP'.
    destruct (validate_entry_with ar md (self, out) entry) as [s1 o1].
    by apply IH. }
  unfold run_with. induction calls as [|[data md] calls IH]; intros self HP;
    [done|].
  cbn [fold_left]. apply IH. rewrite validate_data_with_state. cbn [fst snd].
  destruct (enable_validation self); [|done]. by apply Hloop.
Qed.

End Arithmetic.

(** C1 (amended). For a sensor outside the monotonic set and any validator
    state, a finite reading that is at distance at least 0.01 from every
    error sentinel, lies inside the resolved range, and is not rejected by
    the outlier check against the sensor's rolling history is accepted by
    [validate_data]: its key is in the output with its value.  This holds
    for the outlier check as the code computes it in floating point
    ([binary64_arithmetic]) and for any other arithmetic. *)
Theorem plausible_value_accepted
    (ar : arithmetic) (self : SensorValidator)
    (data : list (string * PyValue)) (md : metadata) (sid : string) (q : Q) :
  NoDup (data.*1) ->
  (sid, PyNum (Fin q)) ∈ data ->
  is_monotonic_sensor sid = false ->
  (forall e, e ∈ sentinel_codes -> (0.01 <= Qabs (q - e))%Q) ->
  within_resolved_range self sid (_get_sensor_unit sid md) (Fin q) ->
  fst (_validate_outlier_with ar self sid (Fin q)) = true ->
  dict_get (fst (validate_data_with ar self data md)) sid
  = Some (PyNum (Fin q)).
Proof.
  intros Hnd Hin Hmono Hfar Hrange Hout.
  destruct (enable_validation self) eqn:Hen.
  2: { unfold validate_data_with. rewrite Hen. by apply dict_get_member. }
  rewrite validate_data_with_enabled by done. simpl.
  destruct (dict_split data sid _ Hnd Hin) as (l1 & l2 & -> & Hn1 & Hn2).
  rewrite fold_left_app. cbn [fold_left].
  destruct (validate_loop_with_before ar md self l1 sid Hn1)
    as (s1 & o1 & -> & Hv1 & _).
  assert (_validate_value_with ar s1 sid (PyNum (Fin q)) md = (true, s1))
    as Hok.
  { simpl. rewrite (_is_modbus_error_far q Hfar). simpl.
    rewrite _validate_range_within
      by (by apply (within_resolved_range_view self s1)).
    simpl. rewrite (_validate_monotonic_skip s1 sid _ Hmono). simpl.
    rewrite _validate_outlier_with_pass; [done|].
    by rewrite (_validate_outlier_with_view ar s1 self). }
  rewrite validate_entry_with_eq, Hok. simpl.
  destruct (validate_loop_with_other ar md l2 sid
              (_update_history s1 sid (Fin q))
              (dict_set o1 sid (PyNum (Fin q))) Hn2) as [_ Hd2].
  by rewrite Hd2, dict_get_set_eq.
Qed.

Lemma far_from_sentinels (q : Q) :
  forallb (fun e => Qle_bool 0.01 (Qabs (q - e))) sentinel_codes = true ->
  forall e, e ∈ sentinel_codes -> (0.01 <= Qabs (q - e))%Q.
Proof.
  rewrite forallb_forall. intros Hall e He.
  apply Qle_bool_iff, Hall. by apply list_elem_of_In.
Qed.

Lemma plausible_value_accepted_witness :
  let self :=
    after_readings binary64_arithmetic 5 "ppv" [149; 215; 74; 277; 61]%Q in
  let value := Fin (nearest_float 931.2) in
  dict_get
    (fst (validate_data_with binary64_arithmetic self
            [("ppv", PyNum value)] None)) "ppv"
  = Some (PyNum value).
Proof.
  intros self value.
  apply (plausible_value_accepted binary64_arithmetic self _ None "ppv"
           (nearest_float 931.2)).
  - dict_keys.
  - dict_member.
  - reflexivity.
  - apply far_from_sentinels. vm_compute. reflexivity.
  - vm_compute. reflexivity.
  - vm_compute. reflexivity.
Defined.

(** C1 as stated fails: after the readings 100, 102 and 98 of the power
    sensor "ppv" (not monotonic, unit range -50000..50000), the reading 700
    is finite, far from every sentinel and inside the resolved range, and
    [validate_data] drops it, as an outlier. *)
Lemma plausible_value_rejected_as_outlier :
  let self :=
    run (SensorValidator_init true (of_int 5) None)
      [ ([("ppv", PyNum (of_int 100))], None);
        ([("ppv", PyNum (of_int 102))], None);
        ([("ppv", PyNum (of_int 98))], None) ] in
  let value := of_int 700 in
  is_monotonic_sensor "ppv" = false
  /\ isfinite value = true
  /\ _is_modbus_error value = false
  /\ (forall e, e ∈ sentinel_codes -> (0.01 <= Qabs (700 - e))%Q)
  /\ resolve_range self "ppv" (_get_sensor_unit "ppv" None)
     = Some (int_range (-50000) 50000)
  /\ within_resolved_range self "ppv" (_get_sensor_unit "ppv" None) value
  /\ _value_history self !! "ppv" = Some [of_int 100; of_int 102; of_int 98]
  /\ dict_get (fst (validate_data self [("ppv", PyNum value)] None)) "ppv"
     = None
  /\ recent_failures
       (stats (snd (validate_data self [("ppv", PyNum value)] None)))
     = [mkFailure "ppv" value (OutlierFromMean value (Fin (300 # 3)))].
Proof.
  intros self value.
  split; [reflexivity|]. split; [reflexivity|]. split; [reflexivity|].
  split; [apply far_from_sentinels; reflexivity|].
  split; [vm_compute; reflexivity|]. split; [vm_compute; reflexivity|].
  split; [vm_compute; reflexivity|]. split; vm_compute; reflexivity.
Qed.

(** The same readings in the binary64 arithmetic of the source: 700 is
    dropped as well, with the same reason. *)
Lemma outlier_dropped_in_binary64 :
  let self := after_readings binary64_arithmetic 5 "ppv" [100; 102; 98]%Q in
  let value := of_int 700 in
  let result :=
    validate_data_with binary64_arithmetic self [("ppv", PyNum value)] None in
  within_resolved_range self "ppv" (_get_sensor_unit "ppv" None) value
  /\ dict_get (fst result) "ppv" = None
  /\ recent_failures (stats (snd result))
     = [mkFailure "ppv" value (OutlierFromMean value (of_int 100))].
Proof. vm_compute. repeat split; reflexivity. Qed.

(** C5. The range check uses one tier, chosen by the precedence custom range,
    built-in sensor range, unit default, none: it rejects exactly when that
    tier exists and the value is outside its inclusive bounds, records the
    reason of that tier, and changes nothing when it accepts.  A custom range
    is the tier whatever the tables hold; without one, the row of
    [SENSOR_SPECIFIC_RANGES] is; without either, the row of [DEFAULT_RANGES]
    for the resolved unit is; and with none of the three there is no bound.
    For "battery_soc" the built-in range 0..100 rejects 150, whatever unit
    is resolved, and accepts 42; a custom range 0..200 for the same sensor
    accepts 150, the built-in table not being consulted.  A sensor with
    neither custom nor built-in range and unit "V" has the range 0..1000:
    1500 is rejected with the reason of the unit tier, 500 and both bounds
    are accepted; with no unit, or a unit that has no default range, every
    value passes. *)
Theorem range_check_uses_first_tier
    (self : SensorValidator) (sid : string) (value : number)
    (unit : option string) :
  _validate_range self sid value unit =
    match resolve_range self sid unit with
    | None => (true, self)
    | Some bounds =>
        if num_leb (fst bounds) value && num_leb value (snd bounds)
        then (true, self)
        else reject self sid value (range_reason self sid unit bounds)
    end
  /\ (fst (_validate_range self sid value unit) = false <->
      exists lo hi,
        resolve_range self sid unit = Some (lo, hi)
        /\ ~ (num_leb lo value = true /\ num_leb value hi = true))
  /\ (forall bounds,
        custom_ranges self !! sid = Some bounds ->
        resolve_range self sid unit = Some bounds
        /\ range_reason self sid unit bounds
           = OutsideCustomRange (fst bounds) (snd bounds))
  /\ (forall bounds,
        custom_ranges self !! sid = None ->
        SENSOR_SPECIFIC_RANGES !! sid = Some bounds ->
        resolve_range self sid unit = Some bounds
        /\ range_reason self sid unit bounds
           = OutsideSensorSpecificRange (fst bounds) (snd bounds))
  /\ (custom_ranges self !! sid = None ->
      SENSOR_SPECIFIC_RANGES !! sid = None ->
      match unit with
      | Some u =>
          resolve_range self sid unit = DEFAULT_RANGES !! u
          /\ forall bounds,
               range_reason self sid unit bounds
               = OutsideUnitRange u (fst bounds) (snd bounds)
      | None => resolve_range self sid unit = None
      end)
  /\ (custom_ranges self !! "battery_soc" = None ->
      _validate_range self "battery_soc" (of_int 150) unit =
        reject self "battery_soc" (of_int 150)
          (OutsideSensorSpecificRange (of_int 0) (of_int 100))
      /\ _validate_range self "battery_soc" (of_int 42) unit = (true, self))
  /\ (custom_ranges self !! "battery_soc" = Some (int_range 0 200) ->
      _validate_range self "battery_soc" (of_int 150) unit = (true, self))
  /\ (custom_ranges self !! sid = None ->
      SENSOR_SPECIFIC_RANGES !! sid = None ->
      _validate_range self sid (of_int 1500) (Some "V") =
        reject self sid (of_int 1500)
          (OutsideUnitRange "V" (of_int 0) (of_int 1000))
      /\ _validate_range self sid (of_int 500) (Some "V") = (true, self)
      /\ _validate_range self sid (of_int 0) (Some "V") = (true, self)
      /\ _validate_range self sid (of_int 1000) (Some "V") = (true, self)
      /\ _validate_range self sid (of_int 1500) (Some "rpm") = (true, self)
      /\ _validate_range self sid (of_int 1500) None = (true, self)).
Proof.
  split; [apply _validate_range_resolved|].
  split.
  { rewrite _validate_range_resolved.
    destruct (resolve_range self sid unit) as [[lo hi]|]; simpl.
    - unfold in_bounds; simpl. split.
      + intros Hrej. exists lo, hi. split; [done|]. intros [H1 H2].
        rewrite H1, H2 in Hrej. discriminate.
      + intros (lo' & hi' & [= <- <-] & Hout).
        destruct (num_leb lo value), (num_leb value hi); simpl; try done.
        exfalso. by apply Hout.
    - split; [discriminate | intros (? & ? & [=] & _)]. }
  split.
  { intros bounds Hc. unfold resolve_range, range_reason. by rewrite Hc. }
  split.
  { intros bounds Hc Hs. unfold resolve_range, range_reason.
    by rewrite Hc, Hs. }
  split.
  { intros Hc Hs. unfold resolve_range, range_reason. rewrite Hc, Hs.
    destruct unit as [u|]; [|done]. split; [|done]. simpl.
    destruct (String.eqb u "") eqn:E; [|done].
    by apply String.eqb_eq in E as ->. }
  split.
  { intros Hc. rewrite !_validate_range_resolved.
    unfold resolve_range, range_reason. rewrite Hc. done. }
  split.
  { intros Hc. rewrite _validate_range_resolved.
    unfold resolve_range. rewrite Hc. done. }
  intros Hc Hs. rewrite !_validate_range_resolved.
  unfold resolve_range, range_reason. rewrite Hc, Hs. done.
Qed.

Lemma range_check_uses_first_tier_witness :
  let self := SensorValidator_init true (of_int 5) None in
  (_validate_range self "battery_soc" (of_int 150) (Some "%") =
     reject self "battery_soc" (of_int 150)
       (OutsideSensorSpecificRange (of_int 0) (of_int 100))
   /\ _validate_range self "battery_soc" (of_int 42) (Some "%") = (true, self))
  /\ _validate_range self "vac1" (of_int 1500) (Some "V") =
       reject self "vac1" (of_int 1500)
         (OutsideUnitRange "V" (of_int 0) (of_int 1000)).
Proof.
  intros self.
  pose proof (range_check_uses_first_tier self "vac1" (of_int 1500)
                (Some "%")) as H.
  split.
  - exact (proj1 (proj2 (proj2 (proj2 (proj2 (proj2 H))))) eq_refl).
  - exact (proj1 (proj2 (proj2 (proj2 (proj2 (proj2 (proj2 (proj2 H))))))
                    eq_refl eq_refl)).
Defined.

(** C10. When the metadata mapping has an entry for the sensor, the unit is
    that entry's "unit" field and nothing else: with the field missing the
    unit is [None], the identifier is not inspected, and a sensor without
    custom or built-in range is accepted by the range check at every value.
    The sensor "vfoo" shows it: its identifier would infer volts and the
    reading 5000 is then out of range, but with a metadata entry lacking
    "unit" the same reading passes. *)
Theorem metadata_entry_decides_unit
    (self : SensorValidator) (sid : string)
    (md : gmap string (gmap string string)) (attrs : gmap string string) :
  md !! sid = Some attrs ->
  _get_sensor_unit sid (Some md) = attrs !! "unit"
  /\ (attrs !! "unit" = None ->
      _get_sensor_unit sid (Some md) = None
      /\ (custom_ranges self !! sid = None ->
          SENSOR_SPECIFIC_RANGES !! sid = None ->
          forall value,
            _validate_range self sid value (_get_sensor_unit sid (Some md))
              = (true, self)))
  /\ (infer_unit "vfoo" = Some "V"
      /\ fst (_validate_range (SensorValidator_init true (of_int 5) None)
                "vfoo" (of_int 5000) (_get_sensor_unit "vfoo" None)) = false
      /\ fst (_validate_range (SensorValidator_init true (of_int 5) None)
                "vfoo" (of_int 5000)
                (_get_sensor_unit "vfoo" (Some {["vfoo" := ∅]}))) = true).
Proof.
  intros Hentry.
  assert (_get_sensor_unit sid (Some md) = attrs !! "unit") as Hunit.
  { unfold _get_sensor_unit. by rewrite Hentry. }
  split; [done|]. split.
  - intros Hnone. rewrite Hunit, Hnone. split; [done|].
    intros Hc Hs value. rewrite _validate_range_resolved.
    unfold resolve_range. by rewrite Hc, Hs.
  - split; [reflexivity|]. split; vm_compute; reflexivity.
Qed.

Lemma metadata_entry_decides_unit_witness :
  let self := SensorValidator_init true (of_int 5) None in
  let md : gmap string (gmap string string) :=
    {[ "vfoo" := {[ "kind" := "PV" ]} ]} in
  _get_sensor_unit "vfoo" (Some md) = None
  /\ _validate_range self "vfoo" (of_int 5000)
       (_get_sensor_unit "vfoo" (Some md)) = (true, self).
Proof.
  intros self md.
  destruct (metadata_entry_decides_unit self "vfoo" md {[ "kind" := "PV" ]}
              eq_refl) as (_ & H & _).
  destruct (H eq_refl) as [Hunit Hrange].
  split; [exact Hunit | exact (Hrange eq_refl eq_refl (of_int 5000))].
Defined.

(** A reading that is not an error sentinel is never rejected under the
    sentinel reason. *)
Lemma _validate_value_other_reason self sid x md s' :
  _is_modbus_error x = false ->
  _validate_value self sid (PyNum x) md = (false, s') ->
  exists base why,
    why <> ModbusErrorValue
    /\ s' = set_stats base (record_rejection (stats base) sid x why).
Proof.
  intros Herr. simpl. rewrite Herr. unfold _is_finite.
  destruct (isfinite x); simpl.
  2: { intros [= <-]. by exists self, NonFiniteValue. }
  destruct (_validate_range_cases self sid x (_get_sensor_unit sid md))
    as [-> | (why & Hwhy & ->)]; simpl.
  2: { intros [= <-]. by exists self, why. }
  destruct (_validate_monotonic_cases self sid x)
    as [[-> Hm] | [(-> & Hm & Hlast) | (last & -> & Hm & Hl & Hlt)]]; simpl.
  - destruct (_validate_outlier_cases self sid x)
      as [-> | (why & Hwhy & ->)]; simpl; [discriminate|].
    intros [= <-]. by exists self, why.
  - set (base := set_last_monotonic self _).
    destruct (_validate_outlier_cases base sid x)
      as [-> | (why & Hwhy & ->)]; simpl; [discriminate|].
    intros [= <-]. by exists base, why.
  - intros [= <-]. by exists self, (MonotonicDecreased last x).
Qed.

(** C7. A reading is an error sentinel exactly when it is finite and equals,
    or is at distance below 0.01 of, one of 65535, 32767, 32768, -32768.
    Such a reading is rejected under the sentinel reason before any unit or
    range is resolved, for every sensor, validator state and metadata; any
    other rejected reading carries another reason.  The voltage sensor "vac1"
    (unit range 0..1000) rejects 65535 as a sentinel, not as out of range. *)
Theorem sentinel_check_first
    (self : SensorValidator) (sid : string) (x : number) (md : metadata) :
  (_is_modbus_error x = true <->
   exists q e,
     x = Fin q /\ e ∈ sentinel_codes
     /\ (q == e \/ Qabs (q - e) < 0.01)%Q)
  /\ (_is_modbus_error x = true ->
      _validate_value self sid (PyNum x) md =
        reject self sid x ModbusErrorValue)
  /\ (_is_modbus_error x = false ->
      forall s',
        _validate_value self sid (PyNum x) md = (false, s') ->
        exists base why,
          why <> ModbusErrorValue
          /\ s' = set_stats base (record_rejection (stats base) sid x why))
  /\ (let fresh := SensorValidator_init true (of_int 5) None in
      let result := validate_data fresh [("vac1", PyNum (of_int 65535))] None in
      resolve_range fresh "vac1" (_get_sensor_unit "vac1" None)
        = Some (int_range 0 1000)
      /\ in_bounds (int_range 0 1000) (of_int 65535) = false
      /\ fst result = []
      /\ recent_failures (stats (snd result))
         = [mkFailure "vac1" (of_int 65535) ModbusErrorValue]).
Proof.
  split.
  { destruct x as [q| | |].
    - rewrite _is_modbus_error_fin. split.
      + intros (e & He & Hq). by exists q, e.
      + intros (q' & e & [= <-] & He & Hq). by exists e.
    - split; [discriminate | by intros (? & ? & [=] & _)].
    - split; [discriminate | by intros (? & ? & [=] & _)].
    - split; [discriminate | by intros (? & ? & [=] & _)]. }
  split.
  { intros Herr. simpl. by rewrite Herr. }
  split.
  { intros Herr s'. by apply _validate_value_other_reason. }
  vm_compute. repeat split; reflexivity.
Qed.

Lemma sentinel_check_first_witness :
  let self := SensorValidator_init true (of_int 5) None in
  _validate_value self "vac1" (PyNum (Fin 65535.005)) None =
    reject self "vac1" (Fin 65535.005) ModbusErrorValue.
Proof.
  intros self.
  exact (proj1 (proj2 (sentinel_check_first self "vac1" (Fin 65535.005) None))
           eq_refl).
Defined.

(** ** Bounded containers and counters *)

Lemma pop0_app {A} (l : list A) (x : A) :
  l <> [] -> pop0 (l ++ [x]) = pop0 l ++ [x].
Proof. by destruct l. Qed.

(** Appending to a container capped at [cap > 0]: below the cap the item is
    appended, at or above it the oldest item leaves first. *)
Lemma capped_append {A} (cap : nat) (l : list A) (x : A) :
  (0 < cap)%nat ->
  (if (cap <? length (l ++ [x]))%nat then pop0 (l ++ [x]) else l ++ [x])
  = if (length l <? cap)%nat then l ++ [x] else pop0 l ++ [x].
Proof.
  intros Hcap. rewrite length_app. simpl.
  destruct (length l <? cap)%nat eqn:E.
  - apply Nat.ltb_lt in E.
    by assert ((cap <? length l + 1)%nat = false) as ->
      by (apply Nat.ltb_ge; lia).
  - apply Nat.ltb_ge in E.
    assert ((cap <? length l + 1)%nat = true) as -> by (apply Nat.ltb_lt; lia).
    apply pop0_app. destruct l; simpl in *; [lia | done].
Qed.

Lemma capped_append_length {A} (cap : nat) (l : list A) (x : A) :
  (0 < cap)%nat -> (length l <= cap)%nat ->
  (length (if (length l <? cap)%nat then l ++ [x] else pop0 l ++ [x])
   <= cap)%nat.
Proof.
  intros Hcap Hlen. destruct (length l <? cap)%nat eqn:E.
  - apply Nat.ltb_lt in E. rewrite length_app. simpl. lia.
  - destruct l; simpl in *; [lia|]. rewrite length_app. simpl. lia.
Qed.

Lemma record_rejection_log st sid x why :
  recent_failures (record_rejection st sid x why) =
    if (length (recent_failures st) <? max_recent_failures)%nat
    then recent_failures st ++ [mkFailure sid x why]
    else pop0 (recent_failures st) ++ [mkFailure sid x why].
Proof.
  unfold record_rejection. simpl. apply capped_append.
  unfold max_recent_failures. lia.
Qed.

Lemma _update_history_lookup self sid x :
  _value_history (_update_history self sid x) !! sid =
    Some (let old := default [] (_value_history self !! sid) in
          if (length old <? _max_history)%nat
          then old ++ [x] else pop0 old ++ [x]).
Proof.
  unfold _update_history. simpl. rewrite lookup_insert_eq. f_equal.
  apply capped_append. unfold _max_history. lia.
Qed.

Lemma record_rejection_count self k x why sid :
  count (set_stats self (record_rejection (stats self) k x why)) sid =
    if String.eqb k sid then S (count self sid) else count self sid.
Proof.
  unfold count. simpl. destruct (String.eqb k sid) eqn:E.
  - apply String.eqb_eq in E as ->. rewrite lookup_insert_eq. simpl. lia.
  - apply String.eqb_neq in E. by rewrite lookup_insert_ne.
Qed.

Lemma bounded_run calls self : bounded self -> bounded (run self calls).
Proof.
  apply run_preserves.
  - by intros s sid x _ _ Hb.
  - intros s sid x why [Hh Hf]. split; [exact Hh|].
    simpl stats. rewrite record_rejection_log.
    apply capped_append_length; [unfold max_recent_failures; lia | done].
  - intros s sid x _ [Hh Hf]. split; [|exact Hf].
    intros k h. destruct (decide (k = sid)) as [-> | Hne].
    + rewrite _update_history_lookup. intros [= <-]. cbv zeta.
      apply capped_append_length; [unfold _max_history; lia|].
      destruct (_value_history s !! sid) as [old|] eqn:Ho; simpl.
      * by apply (Hh sid).
      * lia.
    + unfold _update_history. simpl. rewrite lookup_insert_ne by done.
      apply Hh.
Qed.

Lemma count_validate_data self data md sid :
  (count self sid <= count (snd (validate_data self data md)) sid)%nat.
Proof.
  apply (validate_data_preserves
           (fun s => (count self sid <= count s sid)%nat)); [done | | done | lia].
  intros s k x why Hle. rewrite record_rejection_count.
  destruct (String.eqb k sid); lia.
Qed.

(** C9. On a validator built by the constructor and driven through any
    sequence of [validate_data] calls, every rolling history holds at most
    10 values and the failure log at most 50 entries.  Appending to either
    container below its cap keeps everything; at the cap the oldest entry
    is dropped and the new one goes last.  No call lowers a sensor's
    rejection counter. *)
Theorem containers_stay_bounded
    (enable : bool) (sensitivity : number)
    (custom : option (gmap string (number * number)))
    (calls : list (list (string * PyValue) * metadata)) :
  let self := run (SensorValidator_init enable sensitivity custom) calls in
  (forall sid h, _value_history self !! sid = Some h ->
     (length h <= 10)%nat)
  /\ (length (recent_failures (stats self)) <= 50)%nat
  /\ (forall s sid x,
        _value_history (_update_history s sid x) !! sid =
          Some (let old := default [] (_value_history s !! sid) in
                if (length old <? 10)%nat
                then old ++ [x] else tail old ++ [x]))
  /\ (forall st sid x why,
        recent_failures (record_rejection st sid x why) =
          if (length (recent_failures st) <? 50)%nat
          then recent_failures st ++ [mkFailure sid x why]
          else tail (recent_failures st) ++ [mkFailure sid x why])
  /\ (forall s data md sid,
        (count s sid <= count (snd (validate_data s data md)) sid)%nat)
  /\ (forall s more sid, (count s sid <= count (run s more) sid)%nat).
Proof.
  intros self.
  assert (bounded self) as [Hh Hf].
  { apply bounded_run. split; [|simpl; unfold max_recent_failures; lia].
    intros sid h. simpl. by rewrite lookup_empty. }
  split; [exact Hh|]. split; [exact Hf|].
  split; [apply _update_history_lookup|].
  split; [apply record_rejection_log|].
  split; [intros; apply count_validate_data|].
  intros s more sid.
  apply (run_preserves (fun s' => (count s sid <= count s' sid)%nat));
    [done | | done | lia].
  intros s' k x why Hle. rewrite record_rejection_count.
  destruct (String.eqb k sid); lia.
Qed.

Lemma containers_stay_bounded_witness :
  let calls :=
    (fun z => ([("ppv", PyNum (of_int z))], None : metadata))
      <$> [100; 101; 102; 103; 104; 105; 106; 107; 108; 109; 110; 111]%Z in
  let self := run (SensorValidator_init true (of_int 5) None) calls in
  (length (default [] (_value_history self !! "ppv")) <= 10)%nat.
Proof.
  intros calls self.
  apply (proj1 (containers_stay_bounded true (of_int 5) None calls) "ppv").
  vm_compute. reflexivity.
Defined.

(** ** Sum, maximum and minimum of a finite history *)

Lemma Qltb_comp (a a' b b' : Q) :
  (a == a')%Q -> (b == b')%Q -> Qltb a b = Qltb a' b'.
Proof. intros Ha Hb. unfold Qltb. by rewrite Ha, Hb. Qed.

Lemma is_maximum_unique m1 m2 l :
  is_maximum m1 l -> is_maximum m2 l -> (m1 == m2)%Q.
Proof. intros [Hi1 Hu1] [Hi2 Hu2]. apply Qle_antisym; auto. Qed.

Lemma is_minimum_unique m1 m2 l :
  is_minimum m1 l -> is_minimum m2 l -> (m1 == m2)%Q.
Proof. intros [Hi1 Hu1] [Hi2 Hu2]. apply Qle_antisym; auto. Qed.

Lemma py_sum_fin_from (hq : list Q) : forall a,
  fold_left num_add (Fin <$> hq) (Fin a) = Fin (fold_left Qplus hq a).
Proof. induction hq as [|x hq IH]; intros a; [done | apply IH]. Qed.

Lemma py_max_fin_fold (xs : list Q) : forall x,
  py_max (Fin x) (Fin <$> xs) = Fin (fold_left keep_greater xs x).
Proof.
  unfold py_max. induction xs as [|y xs IH]; intros x; [done|].
  rewrite fmap_cons. cbn [fold_left].
  replace (if num_gtb (Fin y) (Fin x) then Fin y else Fin x)
    with (Fin (keep_greater x y)); [apply IH|].
  unfold keep_greater, num_gtb. rewrite num_ltb_fin. by destruct (Qltb x y).
Qed.

Lemma py_min_fin_fold (xs : list Q) : forall x,
  py_min (Fin x) (Fin <$> xs) = Fin (fold_left keep_smaller xs x).
Proof.
  unfold py_min. induction xs as [|y xs IH]; intros x; [done|].
  rewrite fmap_cons. cbn [fold_left].
  replace (if num_ltb (Fin y) (Fin x) then Fin y else Fin x)
    with (Fin (keep_smaller x y)); [apply IH|].
  unfold keep_smaller. rewrite num_ltb_fin. by destruct (Qltb y x).
Qed.

Lemma fold_left_Qplus (hq : list Q) : forall a,
  (fold_left Qplus hq a == a + Qsum hq)%Q.
Proof.
  induction hq as [|x hq IH]; intros a; simpl.
  - by rewrite Qplus_0_r.
  - rewrite IH. symmetry. apply Qplus_assoc.
Qed.

Lemma keep_greater_is_maximum (xs : list Q) : forall x,
  is_maximum (fold_left keep_greater xs x) (x :: xs).
Proof.
  induction xs as [|y xs IH]; intros x.
  - split; [by left|]. intros z [<- | []]. apply Qle_refl.
  - cbn [fold_left]. destruct (IH (keep_greater x y)) as [Hin Hub].
    assert (x <= keep_greater x y /\ y <= keep_greater x y)%Q as [Hx Hy].
    { unfold keep_greater. destruct (Qltb x y) eqn:E.
      - apply Qltb_lt in E. split; [by apply Qlt_le_weak | apply Qle_refl].
      - apply Qltb_ge in E. split; [apply Qle_refl | done]. }
    split.
    + destruct Hin as [<- | Hin]; [|by right; right].
      unfold keep_greater. destruct (Qltb x y); [right; by left | by left].
    + intros z [<- | [<- | Hz]].
      * eapply Qle_trans; [exact Hx|]. apply Hub. by left.
      * eapply Qle_trans; [exact Hy|]. apply Hub. by left.
      * apply Hub. by right.
Qed.

Lemma keep_smaller_is_minimum (xs : list Q) : forall x,
  is_minimum (fold_left keep_smaller xs x) (x :: xs).
Proof.
  induction xs as [|y xs IH]; intros x.
  - split; [by left|]. intros z [<- | []]. apply Qle_refl.
  - cbn [fold_left]. destruct (IH (keep_smaller x y)) as [Hin Hlb].
    assert (keep_smaller x y <= x /\ keep_smaller x y <= y)%Q as [Hx Hy].
    { unfold keep_smaller. destruct (Qltb y x) eqn:E.
      - apply Qltb_lt in E. split; [by apply Qlt_le_weak | apply Qle_refl].
      - apply Qltb_ge in E. split; [apply Qle_refl | done]. }
    split.
    + destruct Hin as [<- | Hin]; [|by right; right].
      unfold keep_smaller. destruct (Qltb y x); [right; by left | by left].
    + intros z [<- | [<- | Hz]].
      * eapply Qle_trans; [|exact Hx]. apply Hlb. by left.
      * eapply Qle_trans; [|exact Hy]. apply Hlb. by left.
      * apply Hlb. by right.
Qed.

Lemma Qmax2_bounds (a b : Q) :
  (Qmax2 a b = a \/ Qmax2 a b = b) /\ (a <= Qmax2 a b)%Q /\ (b <= Qmax2 a b)%Q.
Proof.
  unfold Qmax2. destruct (Qle_bool a b) eqn:E.
  - apply Qle_bool_iff in E. split; [by right|]. split; [done | apply Qle_refl].
  - split; [by left|]. split; [apply Qle_refl|].
    apply Qlt_le_weak, Qltb_lt. unfold Qltb.
    assert (Qle_bool a b = false) as -> by done. done.
Qed.

Lemma Qmin2_bounds (a b : Q) :
  (Qmin2 a b = a \/ Qmin2 a b = b) /\ (Qmin2 a b <= a)%Q /\ (Qmin2 a b <= b)%Q.
Proof.
  unfold Qmin2. destruct (Qle_bool a b) eqn:E.
  - apply Qle_bool_iff in E. split; [by left|]. split; [apply Qle_refl | done].
  - split; [by right|]. split; [|apply Qle_refl].
    apply Qlt_le_weak, Qltb_lt. unfold Qltb.
    assert (Qle_bool a b = false) as -> by done. done.
Qed.

Lemma Qmaximum_is_maximum (x : Q) (xs : list Q) :
  is_maximum (Qmaximum (x :: xs)) (x :: xs).
Proof.
  unfold Qmaximum. induction xs as [|y xs [Hin Hub]]; simpl.
  - split; [by left|]. intros z [<- | []]. apply Qle_refl.
  - destruct (Qmax2_bounds y (fold_right Qmax2 x xs)) as ([-> | ->] & Hy & Hm).
    + split; [right; by left|].
      intros z [<- | [<- | Hz]].
      * eapply Qle_trans; [|exact Hm]. apply Hub. by left.
      * apply Qle_refl.
      * eapply Qle_trans; [|exact Hm]. apply Hub. by right.
    + split.
      * destruct Hin as [<- | Hin]; [by left | right; by right].
      * intros z [<- | [<- | Hz]]; [apply Hub; by left | done |].
        apply Hub. by right.
Qed.

Lemma Qminimum_is_minimum (x : Q) (xs : list Q) :
  is_minimum (Qminimum (x :: xs)) (x :: xs).
Proof.
  unfold Qminimum. induction xs as [|y xs [Hin Hlb]]; simpl.
  - split; [by left|]. intros z [<- | []]. apply Qle_refl.
  - destruct (Qmin2_bounds y (fold_right Qmin2 x xs)) as ([-> | ->] & Hy & Hm).
    + split; [right; by left|].
      intros z [<- | [<- | Hz]].
      * eapply Qle_trans; [exact Hm|]. apply Hlb. by left.
      * apply Qle_refl.
      * eapply Qle_trans; [exact Hm|]. apply Hlb. by right.
    + split.
      * destruct Hin as [<- | Hin]; [by left | right; by right].
      * intros z [<- | [<- | Hz]]; [apply Hlb; by left | done |].
        apply Hlb. by right.
Qed.

(** On a history of at least three finite readings, with finite sensitivity
    and value, the verdict of [_validate_outlier] is a comparison of
    rationals. *)
Lemma _validate_outlier_fin self sid hq sens q :
  _value_history self !! sid = Some (Fin <$> hq) ->
  (3 <= length hq)%nat ->
  outlier_sensitivity self = Fin sens ->
  exists mean hi lo,
    (mean == Qmean hq)%Q /\ (hi == Qmaximum hq)%Q /\ (lo == Qminimum hq)%Q
    /\ fst (_validate_outlier self sid (Fin q)) =
         if Qltb (Qabs mean) 0.1
         then negb (Qltb ((hi - lo) * sens
                          + keep_greater (Qabs hi) (Qabs lo)) (Qabs q))
         else negb (Qltb (Qabs mean * sens) (Qabs (q - mean))).
Proof.
  intros Hh Hlen Hs. unfold _validate_outlier. rewrite Hh, Hs, length_fmap.
  assert ((length hq <? 3)%nat = false) as -> by (apply Nat.ltb_ge; lia).
  destruct hq as [|x xs]; [simpl in Hlen; lia|].
  rewrite fmap_cons. cbv zeta.
  change (py_sum (Fin x :: (Fin <$> xs)))
    with (fold_left num_add (Fin <$> xs) (Fin (inject_Z 0 + x))).
  rewrite py_sum_fin_from, py_max_fin_fold, py_min_fin_fold.
  set (total := fold_left Qplus xs (inject_Z 0 + x)%Q).
  set (hi := fold_left keep_greater xs x).
  set (lo := fold_left keep_smaller xs x).
  exists (total / inject_Z (Z.of_nat (length (x :: xs))))%Q, hi, lo.
  split.
  { unfold Qmean, total. rewrite fold_left_Qplus. simpl Qsum.
    apply Qdiv_comp; [|done]. unfold inject_Z. ring. }
  split.
  { apply (is_maximum_unique _ _ (x :: xs));
      [apply keep_greater_is_maximum | apply Qmaximum_is_maximum]. }
  split.
  { apply (is_minimum_unique _ _ (x :: xs));
      [apply keep_smaller_is_minimum | apply Qminimum_is_minimum]. }
  cbn [num_div_len num_abs num_ltb num_sub num_neg num_add num_mul num_gtb].
  change [Fin (Qabs lo)] with (Fin <$> [Qabs lo]).
  rewrite py_max_fin_fold.
  cbn [num_div_len num_abs num_ltb num_sub num_neg num_add num_mul num_gtb
       fold_left].
  unfold Qminus.
  destruct (Qltb (Qabs _) 0.1).
  - destruct (Qltb _ (Qabs q)); reflexivity.
  - destruct (Qltb _ (Qabs _)); reflexivity.
Qed.

Lemma keep_greater_Qmax2 (a a' b b' : Q) :
  (a == a')%Q -> (b == b')%Q -> (keep_greater a b == Qmax2 a' b')%Q.
Proof.
  intros Ha Hb. unfold keep_greater, Qmax2.
  destruct (Qltb a b) eqn:Hlt, (Qle_bool a' b') eqn:Hle; try done.
  - apply Qltb_lt in Hlt. rewrite Ha, Hb in Hlt.
    apply Qlt_le_weak, Qle_bool_iff in Hlt. congruence.
  - apply Qltb_ge in Hlt. apply Qle_bool_iff in Hle.
    rewrite <- Hb. apply Qle_antisym; [|done]. by rewrite Ha, Hb.
Qed.

Lemma _validate_outlier_rule self sid hq sens q :
  _value_history self !! sid = Some (Fin <$> hq) ->
  (3 <= length hq)%nat ->
  outlier_sensitivity self = Fin sens ->
  fst (_validate_outlier self sid (Fin q)) = false <-> outlier_rule hq sens q.
Proof.
  intros Hh Hlen Hs.
  destruct (_validate_outlier_fin self sid hq sens q Hh Hlen Hs)
    as (mean & hi & lo & Hm & Hhi & Hlo & ->).
  unfold outlier_rule. cbv zeta.
  replace (Qltb (Qabs (Qmean hq)) 0.1) with (Qltb (Qabs mean) 0.1)
    by (apply Qltb_comp; [by rewrite Hm | done]).
  destruct (Qltb (Qabs mean) 0.1); rewrite negb_false_iff, Qltb_lt.
  - assert ((hi - lo) * sens + keep_greater (Qabs hi) (Qabs lo)
            == (Qmaximum hq - Qminimum hq) * sens
               + Qmax2 (Qabs (Qmaximum hq)) (Qabs (Qminimum hq)))%Q as ->;
      [|done].
    rewrite (keep_greater_Qmax2 _ (Qabs (Qmaximum hq)) _
               (Qabs (Qminimum hq))) by (by apply Qabs_wd).
    by rewrite Hhi, Hlo.
  - by rewrite Hm.
Qed.

(** ** The outlier rule over an arithmetic *)

Lemma _validate_outlier_with_short ar self sid value :
  (forall h, _value_history self !! sid = Some h -> (length h < 3)%nat) ->
  _validate_outlier_with ar self sid value = (true, self).
Proof.
  intros Hshort. unfold _validate_outlier_with.
  destruct (_value_history self !! sid) as [h|] eqn:Hh; [|done].
  specialize (Hshort h eq_refl).
  by apply Nat.ltb_lt in Hshort as ->.
Qed.

(** On a history of at least three finite readings the check is the rule,
    taken at the maximum and the minimum that [max] and [min] return. *)
Lemma _validate_outlier_with_rule ar hq :
  (3 <= length hq)%nat ->
  exists hi lo top,
    is_maximum hi hq /\ is_minimum lo hq
    /\ is_maximum top [Qabs hi; Qabs lo]
    /\ forall self sid value,
         _value_history self !! sid = Some (Fin <$> hq) ->
         fst (_validate_outlier_with ar self sid value)
         = negb (outlier_rule_with ar hq hi lo top
                   (outlier_sensitivity self) value).
Proof.
  intros Hlen. destruct hq as [|x xs]; [simpl in Hlen; lia|].
  exists (fold_left keep_greater xs x), (fold_left keep_smaller xs x),
    (fold_left keep_greater [Qabs (fold_left keep_smaller xs x)]
       (Qabs (fold_left keep_greater xs x))).
  split; [apply keep_greater_is_maximum|].
  split; [apply keep_smaller_is_minimum|].
  split; [apply keep_greater_is_maximum|].
  intros self sid value Hh.
  unfold _validate_outlier_with, outlier_rule_with.
  rewrite Hh, length_fmap.
  assert ((length (x :: xs) <? 3)%nat = false) as ->
    by (apply Nat.ltb_ge; lia).
  rewrite fmap_cons. cbv zeta.
  rewrite py_max_fin_fold, py_min_fin_fold.
  cbn [num_abs].
  change [Fin (Qabs (fold_left keep_smaller xs x))]
    with (Fin <$> [Qabs (fold_left keep_smaller xs x)]).
  rewrite py_max_fin_fold.
  destruct (num_ltb _ (ar_tenth ar)).
  - destruct (num_gtb (num_abs value) _); reflexivity.
  - destruct (num_gtb _ _); reflexivity.
Qed.

(** Only finite readings are ever stored in a rolling history. *)
Lemma history_finite_run_with ar calls self :
  (forall sid h, _value_history self !! sid = Some h ->
     Forall (fun x => isfinite x = true) h) ->
  forall sid h, _value_history (run_with ar self calls) !! sid = Some h ->
    Forall (fun x => isfinite x = true) h.
Proof.
  apply (run_with_preserves ar
           (fun s => forall sid h, _value_history s !! sid = Some h ->
                       Forall (fun x => isfinite x = true) h)).
  - by intros s sid x _ _ Hall.
  - by intros s sid x why Hall.
  - intros s sid x Hfin Hall k h.
    destruct (decide (k = sid)) as [-> | Hne].
    + rewrite _update_history_lookup. intros [= <-]. cbv zeta.
      assert (Forall (fun x => isfinite x = true)
                (default [] (_value_history s !! sid))) as Hold.
      { destruct (_value_history s !! sid) as [old|] eqn:Ho; simpl;
          [by apply (Hall sid) | constructor]. }
      destruct (length _ <? _max_history)%nat.
      * apply Forall_app. split; [done | by constructor].
      * apply Forall_app. split; [|by constructor].
        destruct Hold; [constructor | done].
    + unfold _update_history. simpl. rewrite lookup_insert_ne by done.
      apply Hall.
Qed.

Lemma finite_readings (h : list number) :
  Forall (fun x => isfinite x = true) h -> exists hq, h = Fin <$> hq.
Proof.
  induction 1 as [|x h Hx _ [hq ->]]; [by exists []|].
  destruct x as [q| | |]; try discriminate. by exists (q :: hq).
Qed.

(** C6. The outlier check accepts whenever the sensor has no stored history
    or fewer than three stored values.  With three or more stored values it
    rejects exactly when the rule of section 4.3 says so, each operation of
    the rule being the one of the arithmetic in use: a mean below 0.1 in
    magnitude compares |value| with (max - min) * sensitivity
    + max(|max|, |min|), any other mean compares |value - mean| with
    |mean| * sensitivity, where max and min are the largest and the smallest
    stored value.  Stored values are always finite.  In the binary64
    arithmetic of the code, after the readings 100, 102, 98 with sensitivity
    5 the reading 700 is rejected and 150 is accepted; after 100, 100, 101
    the reading 602 is rejected, the mean being rounded to
    100.33333333333333. *)
Theorem outlier_check_rule :
  (forall ar self sid value,
     (forall h, _value_history self !! sid = Some h -> (length h < 3)%nat) ->
     _validate_outlier_with ar self sid value = (true, self))
  /\ (forall ar hq,
        (3 <= length hq)%nat ->
        exists hi lo top,
          is_maximum hi hq /\ is_minimum lo hq
          /\ is_maximum top [Qabs hi; Qabs lo]
          /\ forall self sid value,
               _value_history self !! sid = Some (Fin <$> hq) ->
               (fst (_validate_outlier_with ar self sid value) = false
                <-> outlier_rule_with ar hq hi lo top
                      (outlier_sensitivity self) value = true))
  /\ (forall ar enable sens custom calls sid h,
        _value_history
          (run_with ar (SensorValidator_init enable sens custom) calls)
          !! sid = Some h ->
        exists hq, h = Fin <$> hq)
  /\ (let st := after_readings binary64_arithmetic 5 "ppv" [100; 102; 98]%Q in
      _value_history st !! "ppv" = Some [of_int 100; of_int 102; of_int 98]
      /\ fst (_validate_outlier_with binary64_arithmetic st "ppv" (of_int 700))
         = false
      /\ _validate_outlier_with binary64_arithmetic st "ppv" (of_int 150)
         = (true, st))
  /\ (let st :=
        after_readings binary64_arithmetic 5 "ppv" [100; 100; 101]%Q in
      _value_history st !! "ppv" = Some [of_int 100; of_int 100; of_int 101]
      /\ recent_failures
           (stats (snd (_validate_outlier_with binary64_arithmetic st "ppv"
                          (of_int 602))))
         = [mkFailure "ppv" (of_int 602)
              (OutlierFromMean (of_int 602)
                 (Fin (7060330665825621 # 70368744177664)))]).
Proof.
  split; [apply _validate_outlier_with_short|].
  split.
  { intros ar hq Hlen.
    destruct (_validate_outlier_with_rule ar hq Hlen)
      as (hi & lo & top & Hhi & Hlo & Htop & Hrule).
    exists hi, lo, top. repeat (split; [done|]).
    intros self sid value Hh. rewrite (Hrule self sid value Hh).
    apply negb_false_iff. }
  split.
  { intros ar enable sens custom calls sid h Hh.
    apply finite_readings.
    apply (history_finite_run_with ar calls
             (SensorValidator_init enable sens custom)
             (fun k h' => ltac:(simpl; by rewrite lookup_empty)) sid).
    exact Hh. }
  split; vm_compute; repeat split; reflexivity.
Qed.

Lemma outlier_check_rule_witness :
  let st := after_readings binary64_arithmetic 5 "ppv" [100; 102; 98]%Q in
  fst (_validate_outlier_with binary64_arithmetic st "ppv" (of_int 700))
  = false.
Proof.
  intros st.
  exact (proj1 (proj2 (proj1 (proj2 (proj2 (proj2 outlier_check_rule)))))).
Defined.

(** Rounding decides readings at the edge of the rule: the four verdicts of
    binary64 arithmetic below are the opposite of what exact arithmetic
    gives on the same stored values. *)
Lemma rounding_decides_at_the_edge :
  let verdicts sid readings value :=
    let st := after_readings binary64_arithmetic 5 sid readings in
    (fst (_validate_outlier_with binary64_arithmetic st sid (Fin value)),
     fst (_validate_outlier_with exact_arithmetic st sid (Fin value))) in
  verdicts "ppv" [100; 100; 101]%Q 602%Q = (false, true)
  /\ verdicts "ppv" [149; 215; 74; 277; 61]%Q (nearest_float 931.2)
     = (true, false)
  /\ verdicts "ppv" (repeat 0.1%Q 10) (nearest_float 0.2) = (false, true)
  /\ verdicts "reading" (repeat (inject_Z (2 ^ 1021)) 10)
       (inject_Z (- 3 * 2 ^ 1022))
     = (true, false).
Proof. vm_compute. repeat split; reflexivity. Qed.

(** ** Monotonic tracker *)

Lemma after_entry_eq md self sid v :
  after_entry md self sid v =
    let r := _validate_value self sid v md in
    if fst r
    then match v with
         | PyNum x => _update_history (snd r) sid x
         | _ => snd r
         end
    else snd r.
Proof.
  unfold after_entry. rewrite validate_entry_eq. cbv zeta.
  by destruct (fst (_validate_value self sid v md)).
Qed.

(** With validation enabled, what a cycle does for one key of the batch is
    what the loop iteration of that key does, in a state that offers the key
    the view it had before the cycle. *)
Lemma validate_data_focus self data md sid v :
  enable_validation self = true ->
  NoDup (data.*1) ->
  (sid, v) ∈ data ->
  exists s1,
    view_of s1 sid = view_of self sid
    /\ dict_get (fst (validate_data self data md)) sid
       = (if fst (_validate_value s1 sid v md) then Some v else None)
    /\ view_of (snd (validate_data self data md)) sid
       = view_of (after_entry md s1 sid v) sid.
Proof.
  intros Hen Hnd Hin.
  rewrite validate_data_enabled by done. simpl.
  destruct (dict_split data sid v Hnd Hin) as (l1 & l2 & -> & Hn1 & Hn2).
  rewrite validate_loop_at.
  destruct (validate_loop_before md self l1 sid Hn1)
    as (s1 & o1 & -> & Hv1 & Ho1).
  exists s1. split; [done|].
  unfold after_entry. rewrite !validate_entry_eq. cbv zeta.
  destruct (fst (_validate_value s1 sid v md)) eqn:Hok.
  - match goal with
    | |- context [fold_left _ l2 (?s, ?o)] =>
        destruct (validate_loop_other md l2 sid s o Hn2) as [Hv2 Hd2]
    end.
    rewrite Hd2, Hv2, dict_get_set_eq. done.
  - destruct (validate_loop_other md l2 sid
                (snd (_validate_value s1 sid v md)) o1 Hn2) as [Hv2 Hd2].
    rewrite Hd2, Hv2, Ho1. done.
Qed.

(** The tracked value of a sensor never goes down. *)
Lemma tracker_at_least_run sid v calls self :
  tracker_at_least sid v self -> tracker_at_least sid v (run self calls).
Proof.
  apply run_preserves.
  - intros s k x Hfin Hlast (t & Ht & Hle).
    destruct (decide (k = sid)) as [-> | Hne].
    + destruct x as [x'| | |]; try discriminate.
      specialize (Hlast _ Ht). rewrite num_ltb_fin in Hlast.
      apply Qltb_ge in Hlast.
      exists x'. simpl. rewrite lookup_insert_eq.
      split; [done | by eapply Qle_trans].
    + exists t. simpl. by rewrite lookup_insert_ne.
  - by intros s k x why Ht.
  - by intros s k x _ Ht.
Qed.

Lemma tracker_at_least_view sid v s1 s2 :
  view_of s1 sid = view_of s2 sid ->
  tracker_at_least sid v s1 -> tracker_at_least sid v s2.
Proof.
  intros Hv (t & Ht & Hle). injection Hv as _ Htr _ _ _ _.
  exists t. by rewrite <- Htr.
Qed.

(** A reading below the tracked value of a monotonic sensor is rejected. *)
Lemma regression_rejected self sid md w v :
  is_monotonic_sensor sid = true ->
  tracker_at_least sid v self ->
  num_ltb w (Fin v) = true ->
  fst (_validate_value self sid (PyNum w) md) = false.
Proof.
  intros Hm (t & Ht & Hle) Hlt. simpl.
  destruct (_is_modbus_error w); [done|].
  unfold _is_finite. destruct (isfinite w) eqn:Hfin; [|done]. simpl.
  destruct (_validate_range_cases self sid w (_get_sensor_unit sid md))
    as [-> | (why & _ & ->)]; [|done]. simpl.
  destruct (_validate_monotonic_cases self sid w)
    as [[_ Hm'] | [(_ & _ & Hlast) | (last & -> & _)]]; [congruence | | done].
  specialize (Hlast _ Ht).
  destruct w as [w'| | |]; try discriminate.
  rewrite num_ltb_fin in Hlt, Hlast.
  apply Qltb_lt in Hlt. apply Qltb_ge in Hlast.
  exfalso. apply (Qlt_not_le _ _ Hlt). by eapply Qle_trans.
Qed.

Lemma _validate_monotonic_rejects self sid x :
  fst (_validate_monotonic self sid x) = false <->
  is_monotonic_sensor sid = true
  /\ exists last,
       _last_monotonic_values self !! sid = Some last
       /\ num_ltb x last = true.
Proof.
  destruct (_validate_monotonic_cases self sid x)
    as [[-> Hm] | [(-> & Hm & Hlast) | (last & -> & Hm & Hl & Hlt)]]; simpl.
  - split; [done | intros [? _]; congruence].
  - split; [done|]. intros (_ & last & Hl & Hlt).
    rewrite (Hlast _ Hl) in Hlt. done.
  - split; [|done]. intros _. split; [done|]. by exists last.
Qed.

(** An accepted reading of a monotonic sensor is the tracked value right
    after its cycle. *)
Lemma accepted_sets_tracker self data md sid V :
  enable_validation self = true ->
  is_monotonic_sensor sid = true ->
  NoDup (data.*1) ->
  (sid, PyNum V) ∈ data ->
  dict_get (fst (validate_data self data md)) sid = Some (PyNum V) ->
  isfinite V = true
  /\ _last_monotonic_values (snd (validate_data self data md)) !! sid
     = Some V.
Proof.
  intros Hen Hm Hnd Hin Hacc.
  destruct (validate_data_focus self data md sid _ Hen Hnd Hin)
    as (s1 & _ & Hout & Hview).
  rewrite Hout in Hacc.
  destruct (fst (_validate_value s1 sid (PyNum V) md)) eqn:Hok; [|done].
  pose proof (_validate_value_verdict s1 sid (PyNum V) md) as Hv.
  rewrite Hok in Hv.
  injection Hview as _ -> _ _ _ _.
  rewrite after_entry_eq. cbv zeta. rewrite Hok.
  inversion Hv as [Hnum | x base Hx Herr Hfin Hstep Htr | ]; [done|].
  injection Hx as <-. split; [done|]. by apply Htr.
Qed.

(** C4. For a sensor of the monotonic set, the monotonic check rejects
    exactly a reading strictly below the tracked value, so an equal reading
    passes it.  Once [validate_data] has accepted a reading [V] of the
    sensor, a reading equal to [V] passes the monotonic check, and after any
    further cycles every reading strictly below [V] is rejected.  The
    "e_total" sequence 100, 105 is accepted, then 103 is rejected as a
    regression from 105, then 105 and 110 are accepted. *)
Theorem monotonic_no_regression :
  (forall self data md sid V,
     enable_validation self = true ->
     is_monotonic_sensor sid = true ->
     NoDup (data.*1) ->
     (sid, PyNum V) ∈ data ->
     dict_get (fst (validate_data self data md)) sid = Some (PyNum V) ->
     let after := snd (validate_data self data md) in
     fst (_validate_monotonic after sid V) = true
     /\ forall calls data' md' w,
          NoDup (data'.*1) ->
          (sid, PyNum w) ∈ data' ->
          num_ltb w V = true ->
          dict_get (fst (validate_data (run after calls) data' md')) sid
            = None)
  /\ (forall self sid x,
        is_monotonic_sensor sid = true ->
        (fst (_validate_monotonic self sid x) = false <->
         exists last,
           _last_monotonic_values self !! sid = Some last
           /\ num_ltb x last = true))
  /\ (let feed s z :=
        validate_data s [("e_total", PyNum (of_int z))] None in
      let r1 := feed (SensorValidator_init true (of_int 5) None) 100%Z in
      let r2 := feed (snd r1) 105%Z in
      let r3 := feed (snd r2) 103%Z in
      let r4 := feed (snd r3) 105%Z in
      let r5 := feed (snd r4) 110%Z in
      fst r1 = [("e_total", PyNum (of_int 100))]
      /\ fst r2 = [("e_total", PyNum (of_int 105))]
      /\ fst r3 = []
      /\ recent_failures (stats (snd r3))
         = [mkFailure "e_total" (of_int 103)
              (MonotonicDecreased (of_int 105) (of_int 103))]
      /\ fst r4 = [("e_total", PyNum (of_int 105))]
      /\ fst r5 = [("e_total", PyNum (of_int 110))]).
Proof.
  split.
  { intros self data md sid V Hen Hm Hnd Hin Hacc after.
    destruct (accepted_sets_tracker self data md sid V Hen Hm Hnd Hin Hacc)
      as [Hfin Htr].
    destruct V as [v| | |]; try discriminate. fold after in Htr.
    split.
    - apply not_false_iff_true. rewrite _validate_monotonic_rejects.
      intros (_ & last & Hl & Hlt). rewrite Htr in Hl. injection Hl as <-.
      rewrite num_ltb_fin in Hlt. apply Qltb_lt in Hlt.
      by apply Qlt_irrefl in Hlt.
    - intros calls data' md' w Hnd' Hin' Hlt.
      assert (tracker_at_least sid v (run after calls)) as Hat.
      { apply tracker_at_least_run. exists v. split; [done | apply Qle_refl]. }
      assert (enable_validation (run after calls) = true) as Hen'.
      { pose proof (run_config calls after) as Hc.
        pose proof (run_config [(data, md)] self) as Hc'.
        unfold config_of in Hc, Hc'. simpl in Hc'. fold after in Hc'.
        congruence. }
      destruct (validate_data_focus _ data' md' sid _ Hen' Hnd' Hin')
        as (s1 & Hv1 & -> & _).
      rewrite (regression_rejected s1 sid md' w v); try done.
      by apply (tracker_at_least_view sid v (run after calls)). }
  split.
  { intros self sid x Hm. rewrite _validate_monotonic_rejects. tauto. }
  vm_compute. repeat split; reflexivity.
Qed.

Lemma monotonic_no_regression_witness :
  let s0 := SensorValidator_init true (of_int 5) None in
  let s1 := snd (validate_data s0 [("e_total", PyNum (of_int 100))] None) in
  let s2 := snd (validate_data s1 [("e_total", PyNum (of_int 105))] None) in
  dict_get (fst (validate_data s2 [("e_total", PyNum (of_int 103))] None))
    "e_total" = None.
Proof.
  intros s0 s1 s2.
  refine (proj2 (proj1 monotonic_no_regression
                   s1 [("e_total", PyNum (of_int 105))] None "e_total"
                   (of_int 105) eq_refl eq_refl _ _ _)
            [] [("e_total", PyNum (of_int 103))] None (of_int 103) _ _ _).
  - dict_keys.
  - dict_member.
  - vm_compute. reflexivity.
  - dict_keys.
  - dict_member.
  - reflexivity.
Defined.

(** ** Rejected readings and the rolling state *)

(** A rejected reading never enters the rolling history; its tracker entry
    is unchanged unless the monotonic step had already overwritten it when a
    later step rejected the reading. *)
Lemma rejected_value_state self sid v md :
  fst (_validate_value self sid v md) = false ->
  let after := after_entry md self sid v in
  _value_history after = _value_history self
  /\ (_last_monotonic_values after = _last_monotonic_values self
      \/ exists x,
           v = PyNum x
           /\ _last_monotonic_values after
              = <[sid := x]> (_last_monotonic_values self)).
Proof.
  intros Hrej after. subst after. rewrite after_entry_eq. cbv zeta.
  pose proof (_validate_value_verdict self sid v md) as Hv.
  rewrite Hrej in *.
  inversion Hv as [ | | x base why Hx Hstep Heq]; subst.
  destruct Hstep as [-> | (-> & _)]; simpl; [by split; [|left]|].
  split; [done|]. right. by exists x.
Qed.

(** C2 fails on the tracker.  The lifetime counter "e_total" reads 100 three
    times and then 700: the value is in the unit range and not below the
    tracked 100, so [_validate_monotonic] stores 700, and only then the
    outlier check rejects it.  The key is absent from the output and the
    history is untouched, but the tracker entry has moved from 100 to 700,
    and the next genuine reading 101 is rejected as a regression. *)
Theorem rejected_outlier_overwrites_tracker :
  let before :=
    run (SensorValidator_init true (of_int 5) None)
      [ ([("e_total", PyNum (of_int 100))], None);
        ([("e_total", PyNum (of_int 100))], None);
        ([("e_total", PyNum (of_int 100))], None) ] in
  let result := validate_data before [("e_total", PyNum (of_int 700))] None in
  let next :=
    validate_data (snd result) [("e_total", PyNum (of_int 101))] None in
  is_monotonic_sensor "e_total" = true
  /\ dict_get (fst result) "e_total" = None
  /\ recent_failures (stats (snd result))
     = [mkFailure "e_total" (of_int 700)
          (OutlierFromMean (of_int 700) (Fin (300 # 3)))]
  /\ _value_history (snd result) !! "e_total"
     = _value_history before !! "e_total"
  /\ _last_monotonic_values before !! "e_total" = Some (of_int 100)
  /\ _last_monotonic_values (snd result) !! "e_total" = Some (of_int 700)
  /\ fst next = []
  /\ recent_failures (stats (snd next))
     = [mkFailure "e_total" (of_int 700)
          (OutlierFromMean (of_int 700) (Fin (300 # 3)));
        mkFailure "e_total" (of_int 101)
          (MonotonicDecreased (of_int 700) (of_int 101))].
Proof.
  vm_compute. repeat split; reflexivity.
Qed.

(** * Further properties of the code *)

(** ** The verdict pipeline as a whole *)

Lemma _validate_outlier_frame s1 s2 sid x :
  _value_history s1 !! sid = _value_history s2 !! sid ->
  outlier_sensitivity s1 = outlier_sensitivity s2 ->
  fst (_validate_outlier s1 sid x) = fst (_validate_outlier s2 sid x).
Proof.
  intros Hh Hs. unfold _validate_outlier. rewrite Hh, Hs.
  repeat case_match; done.
Qed.

(** The whole effect of [_validate_value] on a numeric reading. *)
Lemma pipeline_result self sid x md :
  exists why,
    _validate_value self sid (PyNum x) md =
      if reaches_outlier self sid x md && fst (_validate_outlier self sid x)
      then (true, after_monotonic self sid x md)
      else reject (after_monotonic self sid x md) sid x why.
Proof.
  unfold after_monotonic, reaches_outlier. simpl.
  destruct (_is_modbus_error x) eqn:Herr; simpl; [by eexists|].
  unfold _is_finite. destruct (isfinite x) eqn:Hfin; simpl; [|by eexists].
  destruct (_validate_range_cases self sid x (_get_sensor_unit sid md))
    as [-> | (why & _ & ->)]; simpl; [|by eexists].
  destruct (_validate_monotonic_cases self sid x)
    as [[-> Hm] | [(-> & Hm & Hlast) | (last & -> & Hm & Hl & Hlt)]]; simpl;
    try rewrite Hm; simpl.
  - destruct (_validate_outlier_cases self sid x) as [-> | (why & _ & ->)];
      simpl; [by exists NonFiniteValue | by eexists].
  - set (base := set_last_monotonic self _).
    rewrite <- (_validate_outlier_frame base self sid x) by done.
    destruct (_validate_outlier_cases base sid x) as [-> | (why & _ & ->)];
      simpl; [by exists NonFiniteValue | by eexists].
  - by eexists.
Qed.

Lemma _validate_range_passes self sid x unit :
  fst (_validate_range self sid x unit) = true <->
  within_resolved_range self sid unit x.
Proof.
  rewrite _validate_range_resolved. unfold within_resolved_range.
  destruct (resolve_range self sid unit) as [bounds|]; [|done].
  by destruct (in_bounds bounds x).
Qed.

Lemma _validate_monotonic_passes self sid x :
  fst (_validate_monotonic self sid x) = true <->
  (is_monotonic_sensor sid = true ->
   forall last, _last_monotonic_values self !! sid = Some last ->
     num_ltb x last = false).
Proof.
  rewrite <- not_false_iff_true, _validate_monotonic_rejects. split.
  - intros Hn Hm last Hl. apply not_true_iff_false. intros Hlt.
    apply Hn. split; [done|]. by exists last.
  - intros Hok (Hm & last & Hl & Hlt). by rewrite (Hok Hm last Hl) in Hlt.
Qed.

Lemma reaches_outlier_iff self sid x md :
  reaches_outlier self sid x md = true <->
  _is_modbus_error x = false
  /\ isfinite x = true
  /\ within_resolved_range self sid (_get_sensor_unit sid md) x
  /\ (is_monotonic_sensor sid = true ->
      forall last, _last_monotonic_values self !! sid = Some last ->
        num_ltb x last = false).
Proof.
  unfold reaches_outlier, _is_finite.
  rewrite !andb_true_iff, negb_true_iff, _validate_range_passes,
    _validate_monotonic_passes.
  tauto.
Qed.

Lemma _validate_value_fst self sid x md :
  fst (_validate_value self sid (PyNum x) md) =
    reaches_outlier self sid x md && fst (_validate_outlier self sid x).
Proof.
  destruct (pipeline_result self sid x md) as [why ->].
  by destruct (reaches_outlier self sid x md && _).
Qed.

(** The whole effect of [_validate_value] on a numeric reading, over an
    arithmetic. *)
Lemma pipeline_result_with ar self sid x md :
  exists why,
    _validate_value_with ar self sid (PyNum x) md =
      if reaches_outlier self sid x md
         && fst (_validate_outlier_with ar self sid x)
      then (true, after_monotonic self sid x md)
      else reject (after_monotonic self sid x md) sid x why.
Proof.
  unfold after_monotonic, reaches_outlier. simpl.
  destruct (_is_modbus_error x) eqn:Herr; simpl; [by eexists|].
  unfold _is_finite. destruct (isfinite x) eqn:Hfin; simpl; [|by eexists].
  destruct (_validate_range_cases self sid x (_get_sensor_unit sid md))
    as [-> | (why & _ & ->)]; simpl; [|by eexists].
  destruct (_validate_monotonic_cases self sid x)
    as [[-> Hm] | [(-> & Hm & Hlast) | (last & -> & Hm & Hl & Hlt)]]; simpl;
    try rewrite Hm; simpl.
  - destruct (_validate_outlier_with_cases ar self sid x)
      as [-> | (why & _ & ->)];
      simpl; [by exists NonFiniteValue | by eexists].
  - set (base := set_last_monotonic self _).
    rewrite <- (_validate_outlier_with_frame ar base self sid x) by done.
    destruct (_validate_outlier_with_cases ar base sid x)
      as [-> | (why & _ & ->)];
      simpl; [by exists NonFiniteValue | by eexists].
  - by eexists.
Qed.

(** A finite reading is no error sentinel exactly when it is at distance at
    least 0.01 from each of the four codes. *)
Lemma not_sentinel_iff (x : number) :
  _is_modbus_error x = false /\ isfinite x = true <->
  exists q, x = Fin q
    /\ forall e, e ∈ sentinel_codes -> (0.01 <= Qabs (q - e))%Q.
Proof.
  split.
  - intros [Herr Hfin]. destruct x as [q| | |]; try discriminate.
    exists q. split; [done|]. intros e He.
    apply Qnot_lt_le. intros Hlt.
    apply not_true_iff_false in Herr. apply Herr, _is_modbus_error_fin.
    exists e. split; [done | by right].
  - intros (q & -> & Hfar). split; [by apply _is_modbus_error_far | done].
Qed.

(** X1. [_validate_value] accepts a numeric reading exactly when all five
    checks pass: the reading is finite and at distance at least 0.01 from
    every error sentinel, it lies in the range tier that applies, it is not
    below the tracked value when the sensor is monotonic, and the outlier
    check, in the arithmetic in use, does not reject it against the stored
    history. *)
Theorem numeric_value_accepted_iff
    (ar : arithmetic) (self : SensorValidator) (sid : string) (x : number)
    (md : metadata) :
  fst (_validate_value_with ar self sid (PyNum x) md) = true <->
  (exists q, x = Fin q
     /\ forall e, e ∈ sentinel_codes -> (0.01 <= Qabs (q - e))%Q)
  /\ within_resolved_range self sid (_get_sensor_unit sid md) x
  /\ (is_monotonic_sensor sid = true ->
      forall last, _last_monotonic_values self !! sid = Some last ->
        num_ltb x last = false)
  /\ fst (_validate_outlier_with ar self sid x) = true.
Proof.
  rewrite <- not_sentinel_iff.
  destruct (pipeline_result_with ar self sid x md) as [why ->].
  transitivity
    (reaches_outlier self sid x md
     && fst (_validate_outlier_with ar self sid x) = true).
  { by destruct (reaches_outlier self sid x md && _). }
  rewrite andb_true_iff, reaches_outlier_iff. tauto.
Qed.

Lemma after_monotonic_stats self sid x md :
  stats (after_monotonic self sid x md) = stats self.
Proof. unfold after_monotonic. by destruct (_ && _). Qed.

Lemma after_monotonic_history self sid x md :
  _value_history (after_monotonic self sid x md) = _value_history self.
Proof. unfold after_monotonic. by destruct (_ && _). Qed.

Lemma after_monotonic_config self sid x md :
  config_of (after_monotonic self sid x md) = config_of self.
Proof. unfold after_monotonic. by destruct (_ && _). Qed.

(** The validator after the loop iteration of a numeric reading. *)
Lemma after_entry_numeric md self sid x :
  exists why,
    after_entry md self sid (PyNum x) =
      if fst (_validate_value self sid (PyNum x) md)
      then _update_history (after_monotonic self sid x md) sid x
      else set_stats (after_monotonic self sid x md)
             (record_rejection (stats self) sid x why).
Proof.
  rewrite after_entry_eq. cbv zeta.
  destruct (pipeline_result self sid x md) as [why ->]. exists why.
  destruct (reaches_outlier self sid x md && _); simpl; [done|].
  by rewrite after_monotonic_stats.
Qed.

Lemma after_entry_non_numeric md self sid v :
  is_numeric v = false -> after_entry md self sid v = self.
Proof. intros Hv. rewrite after_entry_eq. by destruct v. Qed.

Lemma last_snoc_capped {A} (cap : nat) (l : list A) (x : A) :
  last (if (length l <? cap)%nat then l ++ [x] else pop0 l ++ [x]) = Some x.
Proof. destruct (length l <? cap)%nat; apply last_snoc. Qed.

(** X2. An accepted numeric reading leaves counters and failure log as they
    were.  A rejected one raises the counter of its own sensor by exactly one,
    leaves every other counter alone, and becomes the newest log entry, with
    its sensor id and value. *)
Theorem rejection_is_recorded
    (self : SensorValidator) (sid : string) (x : number) (md : metadata) :
  let verdict := _validate_value self sid (PyNum x) md in
  if fst verdict
  then stats (snd verdict) = stats self
  else count (snd verdict) sid = S (count self sid)
       /\ (forall other, other <> sid ->
             count (snd verdict) other = count self other)
       /\ exists why,
            last (recent_failures (stats (snd verdict)))
              = Some (mkFailure sid x why).
Proof.
  cbv zeta. destruct (pipeline_result self sid x md) as [why ->].
  destruct (reaches_outlier self sid x md && _).
  - apply after_monotonic_stats.
  - unfold reject. cbn [fst snd]. rewrite after_monotonic_stats.
    set (base := after_monotonic self sid x md).
    assert (forall k,
              count (set_stats base (record_rejection (stats self) sid x why))
                k = count (set_stats self
                             (record_rejection (stats self) sid x why)) k)
      as Hbase by done.
    split; [|split].
    + rewrite Hbase, record_rejection_count. by rewrite String.eqb_refl.
    + intros other Hne. rewrite Hbase, record_rejection_count.
      by apply not_eq_sym, String.eqb_neq in Hne as ->.
    + exists why. cbn [stats set_stats]. rewrite record_rejection_log.
      apply last_snoc_capped.
Qed.

(** ** Batches *)

Lemma dict_set_fresh {A} (d : list (string * A)) k v :
  k ∉ d.*1 -> dict_set d k v = d ++ [(k, v)].
Proof.
  induction d as [|[k' v'] d IH]; intros Hn; simpl; [done|].
  rewrite fmap_cons in Hn. apply not_elem_of_cons in Hn as [Hne Hn].
  apply not_eq_sym, String.eqb_neq in Hne. simpl in Hne. rewrite Hne.
  by rewrite IH.
Qed.

Lemma validate_entry_parts md self out sid v :
  validate_entry md (self, out) (sid, v) =
    (after_entry md self sid v,
     if fst (_validate_value self sid v md) then dict_set out sid v else out).
Proof.
  unfold after_entry. rewrite !validate_entry_eq. cbv zeta.
  by destruct (fst (_validate_value self sid v md)).
Qed.

(** With distinct keys the loop appends the accepted entries, in order, to
    the dictionary it was given. *)
Lemma validate_loop_append md data : forall self out,
  NoDup (data.*1) ->
  (forall k, k ∈ data.*1 -> k ∉ out.*1) ->
  fold_left (validate_entry md) data (self, out) =
    (fst (fold_left (validate_entry md) data (self, [])),
     out ++ snd (fold_left (validate_entry md) data (self, [])))
  /\ sublist (snd (fold_left (validate_entry md) data (self, []))) data.
Proof.
  induction data as [|[k v] data IH]; intros self out Hnd Hfresh.
  { simpl. by rewrite app_nil_r. }
  rewrite fmap_cons in Hnd. apply NoDup_cons in Hnd as [Hk Hnd].
  cbn [fold_left]. rewrite !validate_entry_parts.
  set (s1 := after_entry md self k v).
  assert (k ∉ out.*1) as Hkout by (apply Hfresh; rewrite fmap_cons; by left).
  assert (forall k', k' ∈ data.*1 -> k' ∉ out.*1) as Hfresh'.
  { intros k' Hk'. apply Hfresh. rewrite fmap_cons. by right. }
  destruct (fst (_validate_value self k v md)).
  - rewrite dict_set_fresh by done. simpl dict_set.
    destruct (IH s1 (out ++ [(k, v)]) Hnd) as [Ha _].
    { intros k' Hk'. rewrite fmap_app. simpl.
      intros Hin. apply elem_of_app in Hin as [Hin | Hin].
      - by apply (Hfresh' k').
      - apply list_elem_of_singleton in Hin as ->. done. }
    destruct (IH s1 [(k, v)] Hnd) as [Hb Hsub].
    { intros k' Hk'. simpl. intros Hin.
      apply list_elem_of_singleton in Hin as ->. done. }
    rewrite Ha, Hb. simpl. split.
    + by rewrite <- app_assoc.
    + by constructor.
  - destruct (IH s1 out Hnd Hfresh') as [Ha Hsub].
    rewrite Ha. split; [done | by constructor].
Qed.

(** X3. The dictionary returned by [validate_data] is the input with some
    entries left out: the entries that remain keep their values and their
    order. *)
Theorem output_is_ordered_part_of_input
    (self : SensorValidator) (data : list (string * PyValue))
    (md : metadata) :
  NoDup (data.*1) ->
  sublist (fst (validate_data self data md)) data.
Proof.
  intros Hnd. destruct (enable_validation self) eqn:Hen.
  - rewrite validate_data_enabled by done. simpl.
    destruct (validate_loop_append md data self [] Hnd) as [_ Hs]; [|done].
    intros k _. apply not_elem_of_nil.
  - unfold validate_data. by rewrite Hen.
Qed.

Lemma output_is_ordered_part_of_input_witness :
  let data :=
    [ ("vgrid", PyNum (of_int 230)); ("ppv", PyNum (of_int 65535));
      ("work_mode", PyStr "normal") ] in
  sublist
    (fst (validate_data (SensorValidator_init true (of_int 5) None) data None))
    data.
Proof.
  intros data.
  apply (output_is_ordered_part_of_input _ data None). dict_keys.
Defined.

(** X4. Validating a batch in one call is validating its first part and then
    the rest on the resulting validator: the outputs concatenate and the final
    validator is the same. *)
Theorem batch_splits_into_cycles
    (self : SensorValidator) (first rest : list (string * PyValue))
    (md : metadata) :
  NoDup ((first ++ rest).*1) ->
  let r1 := validate_data self first md in
  let r2 := validate_data (snd r1) rest md in
  validate_data self (first ++ rest) md = (fst r1 ++ fst r2, snd r2).
Proof.
  intros Hnd. cbv zeta.
  destruct (enable_validation self) eqn:Hen.
  2: { unfold validate_data. rewrite Hen. simpl. by rewrite Hen. }
  assert (enable_validation (snd (validate_data self first md)) = true)
    as Hen'.
  { pose proof (run_config [(first, md)] self) as Hc.
    unfold config_of in Hc. simpl in Hc. congruence. }
  rewrite (validate_data_enabled _ rest) by done.
  rewrite !validate_data_enabled by done. cbn [fst snd].
  rewrite fold_left_app.
  destruct (fold_left (validate_entry md) first (self, [])) as [s1 o1] eqn:E1.
  rewrite fmap_app in Hnd. apply NoDup_app in Hnd as (Hnd1 & Hdisj & Hnd2).
  destruct (validate_loop_append md rest s1 o1 Hnd2) as [-> _]; [|done].
  intros k Hk Hin.
  assert (sublist o1 first) as Hsub.
  { destruct (validate_loop_append md first self [] Hnd1) as [_ Hs];
      [intros k' _; apply not_elem_of_nil|]. by rewrite E1 in Hs. }
  apply (Hdisj k); [|done].
  apply (elem_of_sublist (o1.*1)); [done | by apply fmap_sublist].
Qed.

Lemma batch_splits_into_cycles_witness :
  let self := SensorValidator_init true (of_int 5) None in
  let first := [("vgrid", PyNum (of_int 230)); ("ppv", PyNum (of_int 65535))] in
  let rest := [("e_total", PyNum (of_int 100))] in
  validate_data self (first ++ rest) None =
    (fst (validate_data self first None)
       ++ fst (validate_data (snd (validate_data self first None)) rest None),
     snd (validate_data (snd (validate_data self first None)) rest None)).
Proof.
  intros self first rest.
  apply (batch_splits_into_cycles self first rest None). dict_keys.
Defined.

(** ** One sensor at a time *)

Lemma _validate_range_fst_view s1 s2 sid x unit :
  view_of s1 sid = view_of s2 sid ->
  fst (_validate_range s1 sid x unit) = fst (_validate_range s2 sid x unit).
Proof.
  intros Hv. injection Hv as _ _ _ _ _ Hcustom.
  unfold _validate_range. rewrite Hcustom. repeat case_match; done.
Qed.

Lemma _validate_monotonic_fst_view s1 s2 sid x :
  view_of s1 sid = view_of s2 sid ->
  fst (_validate_monotonic s1 sid x) = fst (_validate_monotonic s2 sid x).
Proof.
  intros Hv. injection Hv as _ Htr _ _ _ _.
  unfold _validate_monotonic. rewrite Htr. repeat case_match; done.
Qed.

Lemma reaches_outlier_view s1 s2 sid x md :
  view_of s1 sid = view_of s2 sid ->
  reaches_outlier s1 sid x md = reaches_outlier s2 sid x md.
Proof.
  intros Hv. unfold reaches_outlier.
  by rewrite (_validate_range_fst_view s1 s2),
    (_validate_monotonic_fst_view s1 s2).
Qed.

Lemma _validate_value_fst_view s1 s2 sid v md :
  view_of s1 sid = view_of s2 sid ->
  fst (_validate_value s1 sid v md) = fst (_validate_value s2 sid v md).
Proof.
  intros Hv. destruct v as [| b | x | s | r]; try done.
  rewrite !_validate_value_fst.
  by rewrite (reaches_outlier_view s1 s2), (_validate_outlier_view s1 s2).
Qed.

(** What the loop iteration of a numeric reading leaves for its sensor. *)
Lemma after_entry_view md self sid x :
  view_of (after_entry md self sid (PyNum x)) sid =
    let ok := fst (_validate_value self sid (PyNum x) md) in
    {| view_history :=
         if ok
         then Some (let old := default [] (_value_history self !! sid) in
                    if (length old <? _max_history)%nat
                    then old ++ [x] else pop0 old ++ [x])
         else _value_history self !! sid;
       view_tracker :=
         if reaches_outlier self sid x md && is_monotonic_sensor sid
         then Some x else _last_monotonic_values self !! sid;
       view_count :=
         if ok then rejected_count (stats self) !! sid
         else Some (S (count self sid));
       view_enable := enable_validation self;
       view_sensitivity := outlier_sensitivity self;
       view_custom := custom_ranges self |}.
Proof.
  destruct (after_entry_numeric md self sid x) as [why ->]. cbv zeta.
  pose proof (after_monotonic_config self sid x md) as Hc.
  unfold config_of in Hc. injection Hc as He Hs Hcu.
  assert (_last_monotonic_values (after_monotonic self sid x md) !! sid =
            if reaches_outlier self sid x md && is_monotonic_sensor sid
            then Some x else _last_monotonic_values self !! sid) as Htr.
  { unfold after_monotonic. destruct (_ && _); [|done].
    simpl. apply lookup_insert_eq. }
  destruct (fst (_validate_value self sid (PyNum x) md)).
  - unfold view_of. rewrite _update_history_lookup.
    rewrite after_monotonic_history.
    unfold _update_history at 1 2 3 4 5. cbn [set_history
      _last_monotonic_values stats enable_validation outlier_sensitivity
      custom_ranges].
    by rewrite Htr, after_monotonic_stats, He, Hs, Hcu.
  - unfold view_of. cbn [set_stats _value_history _last_monotonic_values
      stats enable_validation outlier_sensitivity custom_ranges].
    rewrite after_monotonic_history, Htr, He, Hs, Hcu. f_equal.
    unfold record_rejection, count. cbn [rejected_count].
    rewrite lookup_insert_eq. f_equal. lia.
Qed.

Lemma after_entry_view_eq md s1 s2 sid v :
  view_of s1 sid = view_of s2 sid ->
  view_of (after_entry md s1 sid v) sid = view_of (after_entry md s2 sid v) sid.
Proof.
  intros Hv. destruct (is_numeric v) eqn:Hnum.
  2: { by rewrite !after_entry_non_numeric. }
  destruct v as [| b | x | s | r]; try done.
  rewrite !after_entry_view. cbv zeta.
  rewrite (_validate_value_fst_view s1 s2 sid _ md Hv),
    (reaches_outlier_view s1 s2 sid x md Hv).
  injection Hv as Hh Ht Hc He Hs Hcu. unfold count.
  by rewrite Hh, Ht, Hc, He, Hs, Hcu.
Qed.

Lemma after_entry_history md self sid x :
  _value_history (after_entry md self sid (PyNum x)) !! sid =
    if fst (_validate_value self sid (PyNum x) md)
    then Some (let old := default [] (_value_history self !! sid) in
               if (length old <? _max_history)%nat
               then old ++ [x] else pop0 old ++ [x])
    else _value_history self !! sid.
Proof. exact (f_equal view_history (after_entry_view md self sid x)). Qed.

Lemma after_entry_tracker md self sid x :
  _last_monotonic_values (after_entry md self sid (PyNum x)) !! sid =
    if reaches_outlier self sid x md && is_monotonic_sensor sid
    then Some x else _last_monotonic_values self !! sid.
Proof. exact (f_equal view_tracker (after_entry_view md self sid x)). Qed.

Lemma after_entry_count md self sid x :
  rejected_count (stats (after_entry md self sid (PyNum x))) !! sid =
    if fst (_validate_value self sid (PyNum x) md)
    then rejected_count (stats self) !! sid
    else Some (S (count self sid)).
Proof. exact (f_equal view_count (after_entry_view md self sid x)). Qed.

(** With validation enabled, a cycle does for each key of the batch what
    the loop iteration of that key alone does to the validator it was given. *)
Lemma validate_data_for_sensor self data md sid v :
  enable_validation self = true ->
  NoDup (data.*1) ->
  (sid, v) ∈ data ->
  dict_get (fst (validate_data self data md)) sid
    = (if fst (_validate_value self sid v md) then Some v else None)
  /\ view_of (snd (validate_data self data md)) sid
     = view_of (after_entry md self sid v) sid.
Proof.
  intros Hen Hnd Hin.
  destruct (validate_data_focus self data md sid v Hen Hnd Hin)
    as (s1 & Hv1 & -> & ->).
  by rewrite (_validate_value_fst_view s1 self), (after_entry_view_eq md s1 self).
Qed.

(** X5. What [validate_data] decides for a key, and what it leaves in that
    sensor's history, tracker and counter, is what it would do had the key
    been submitted alone: the other entries of the batch and their order do
    not matter. *)
Theorem verdict_ignores_rest_of_batch
    (self : SensorValidator) (data : list (string * PyValue))
    (md : metadata) (sid : string) (v : PyValue) :
  NoDup (data.*1) ->
  (sid, v) ∈ data ->
  dict_get (fst (validate_data self data md)) sid
    = dict_get (fst (validate_data self [(sid, v)] md)) sid
  /\ view_of (snd (validate_data self data md)) sid
     = view_of (snd (validate_data self [(sid, v)] md)) sid.
Proof.
  intros Hnd Hin. destruct (enable_validation self) eqn:Hen.
  - destruct (validate_data_for_sensor self data md sid v Hen Hnd Hin)
      as [-> ->].
    destruct (validate_data_for_sensor self [(sid, v)] md sid v Hen)
      as [-> ->]; [dict_keys | dict_member | done].
  - unfold validate_data. rewrite Hen. simpl.
    by rewrite (dict_get_member data sid v), dict_get_cons_eq.
Qed.

Lemma verdict_ignores_rest_of_batch_witness :
  let self := SensorValidator_init true (of_int 5) None in
  let data :=
    [ ("vgrid", PyNum (of_int 230)); ("ppv", PyNum (of_int 65535));
      ("e_total", PyNum (of_int 100)) ] in
  dict_get (fst (validate_data self data None)) "ppv"
    = dict_get (fst (validate_data self [("ppv", PyNum (of_int 65535))] None))
        "ppv".
Proof.
  intros self data.
  refine (proj1 (verdict_ignores_rest_of_batch self data None "ppv"
                   (PyNum (of_int 65535)) _ _)).
  - dict_keys.
  - dict_member.
Defined.

(** X6. With validation enabled, a key of the batch is missing from the
    output exactly when its rejection counter has gone up, and then by one. *)
Theorem dropped_key_is_counted_once
    (self : SensorValidator) (data : list (string * PyValue))
    (md : metadata) (sid : string) (v : PyValue) :
  enable_validation self = true ->
  NoDup (data.*1) ->
  (sid, v) ∈ data ->
  count (snd (validate_data self data md)) sid =
    (count self sid
     + match dict_get (fst (validate_data self data md)) sid with
       | Some _ => 0
       | None => 1
       end)%nat.
Proof.
  intros Hen Hnd Hin.
  destruct (validate_data_for_sensor self data md sid v Hen Hnd Hin)
    as [-> Hview].
  apply (f_equal view_count) in Hview. simpl in Hview.
  unfold count at 1. rewrite Hview.
  destruct (is_numeric v) eqn:Hnum.
  - destruct v as [| b | x | s | r]; try done.
    rewrite after_entry_count.
    destruct (fst (_validate_value self sid (PyNum x) md)); simpl;
      unfold count; lia.
  - rewrite after_entry_non_numeric by done.
    replace (fst (_validate_value self sid v md)) with true
      by (by destruct v).
    unfold count. lia.
Qed.

Lemma dropped_key_is_counted_once_witness :
  let self := SensorValidator_init true (of_int 5) None in
  let data :=
    [ ("vgrid", PyNum (of_int 230)); ("ppv", PyNum (of_int 65535)) ] in
  count (snd (validate_data self data None)) "ppv" =
    (count self "ppv"
     + match dict_get (fst (validate_data self data None)) "ppv" with
       | Some _ => 0
       | None => 1
       end)%nat.
Proof.
  intros self data.
  apply (dropped_key_is_counted_once self data None "ppv"
           (PyNum (of_int 65535))).
  - reflexivity.
  - dict_keys.
  - dict_member.
Defined.

(** X7. After a cycle, the history of a sensor whose numeric reading was
    accepted is the old history with the reading appended (the oldest value
    dropped first once ten are stored); the history of a sensor whose reading
    was rejected is unchanged. *)
Theorem accepted_reading_is_newest_in_history
    (self : SensorValidator) (data : list (string * PyValue))
    (md : metadata) (sid : string) (x : number) :
  enable_validation self = true ->
  NoDup (data.*1) ->
  (sid, PyNum x) ∈ data ->
  _value_history (snd (validate_data self data md)) !! sid =
    match dict_get (fst (validate_data self data md)) sid with
    | Some _ =>
        Some (let old := default [] (_value_history self !! sid) in
              if (length old <? 10)%nat then old ++ [x] else tail old ++ [x])
    | None => _value_history self !! sid
    end.
Proof.
  intros Hen Hnd Hin.
  destruct (validate_data_for_sensor self data md sid _ Hen Hnd Hin)
    as [-> Hview].
  apply (f_equal view_history) in Hview. simpl in Hview.
  rewrite Hview, after_entry_history.
  by destruct (fst (_validate_value self sid (PyNum x) md)).
Qed.

Lemma accepted_reading_is_newest_in_history_witness :
  let self := SensorValidator_init true (of_int 5) None in
  let data := [("vgrid", PyNum (of_int 230)); ("ppv", PyNum (of_int 12))] in
  _value_history (snd (validate_data self data None)) !! "ppv" =
    match dict_get (fst (validate_data self data None)) "ppv" with
    | Some _ =>
        Some (let old := default [] (_value_history self !! "ppv") in
              if (length old <? 10)%nat
              then old ++ [of_int 12] else tail old ++ [of_int 12])
    | None => _value_history self !! "ppv"
    end.
Proof.
  intros self data.
  apply (accepted_reading_is_newest_in_history self data None "ppv"
           (of_int 12)).
  - reflexivity.
  - dict_keys.
  - dict_member.
Defined.

(** X8. A reading that fails the sentinel, finiteness, range or monotonic
    check is dropped and leaves both the history and the tracker of its sensor
    untouched; only a rejection by the outlier check can leave a new tracker
    value behind. *)
Theorem early_rejection_keeps_rolling_state
    (self : SensorValidator) (data : list (string * PyValue))
    (md : metadata) (sid : string) (x : number) :
  enable_validation self = true ->
  NoDup (data.*1) ->
  (sid, PyNum x) ∈ data ->
  reaches_outlier self sid x md = false ->
  let after := snd (validate_data self data md) in
  dict_get (fst (validate_data self data md)) sid = None
  /\ _value_history after !! sid = _value_history self !! sid
  /\ _last_monotonic_values after !! sid = _last_monotonic_values self !! sid.
Proof.
  intros Hen Hnd Hin Hpre after. subst after.
  destruct (validate_data_for_sensor self data md sid _ Hen Hnd Hin)
    as [-> Hview].
  pose proof (f_equal view_history Hview) as Hh.
  pose proof (f_equal view_tracker Hview) as Ht.
  simpl in Hh, Ht.
  rewrite Hh, Ht, after_entry_history, after_entry_tracker.
  rewrite _validate_value_fst, Hpre. done.
Qed.

Lemma early_rejection_keeps_rolling_state_witness :
  let self :=
    run (SensorValidator_init true (of_int 5) None)
      [([("e_total", PyNum (of_int 100))], None)] in
  let data := [("e_total", PyNum (of_int 40))] in
  dict_get (fst (validate_data self data None)) "e_total" = None
  /\ _value_history (snd (validate_data self data None)) !! "e_total"
     = _value_history self !! "e_total"
  /\ _last_monotonic_values (snd (validate_data self data None)) !! "e_total"
     = _last_monotonic_values self !! "e_total".
Proof.
  intros self data.
  apply (early_rejection_keeps_rolling_state self data None "e_total"
           (of_int 40)).
  - reflexivity.
  - dict_keys.
  - dict_member.
  - vm_compute. reflexivity.
Defined.

(** ** Invariants of each sensor's rolling state *)

(** A property of the view of every sensor that the loop iteration of a
    numeric reading keeps for its own sensor is kept by any cycles: other
    sensors' entries do not touch the view. *)
Section SensorInvariant.

Variable Q : string -> view -> Prop.

Hypothesis Q_numeric : forall md self sid x,
  Q sid (view_of self sid) ->
  Q sid (view_of (after_entry md self sid (PyNum x)) sid).

Lemma sensor_invariant_entry md self out entry :
  (forall k, Q k (view_of self k)) ->
  forall k, Q k (view_of (fst (validate_entry md (self, out) entry)) k).
Proof.
  intros HQ k. destruct entry as [sid v].
  destruct (decide (sid = k)) as [-> | Hne].
  - rewrite validate_entry_parts. simpl.
    destruct (is_numeric v) eqn:Hnum.
    + destruct v as [| b | x | s | r]; try done. by apply Q_numeric.
    + by rewrite after_entry_non_numeric.
  - destruct (validate_entry_other md self out sid v k Hne) as [-> _].
    apply HQ.
Qed.

Lemma sensor_invariant_loop md data : forall self out,
  (forall k, Q k (view_of self k)) ->
  forall k, Q k (view_of (fst (fold_left (validate_entry md) data (self, out))) k).
Proof.
  induction data as [|entry data IH]; intros self out HQ; [done|].
  cbn [fold_left].
  pose proof (sensor_invariant_entry md self out entry HQ) as HQ'.
  destruct (validate_entry md (self, out) entry) as [s1 o1]. by apply IH.
Qed.

Lemma sensor_invariant_run calls : forall self,
  (forall k, Q k (view_of self k)) ->
  forall k, Q k (view_of (run self calls) k).
Proof.
  unfold run. induction calls as [|[data md] calls IH]; intros self HQ;
    [done|].
  cbn [fold_left]. apply IH. cbn [fst snd]. rewrite validate_data_state.
  destruct (enable_validation self); [|done].
  by apply sensor_invariant_loop.
Qed.

End SensorInvariant.

Lemma accepted_is_storable self sid x md :
  reaches_outlier self sid x md = true -> storable x.
Proof. intros Hpre. apply reaches_outlier_iff in Hpre. split; tauto. Qed.

Lemma _validate_value_reaches self sid x md :
  fst (_validate_value self sid (PyNum x) md) = true ->
  reaches_outlier self sid x md = true.
Proof. rewrite _validate_value_fst. by intros [? _]%andb_true_iff. Qed.

Lemma Forall_capped_append {A} (P : A -> Prop) (cap : nat) (l : list A) x :
  Forall P l -> P x ->
  Forall P (if (length l <? cap)%nat then l ++ [x] else pop0 l ++ [x]).
Proof.
  intros Hl Hx. destruct (length l <? cap)%nat.
  - apply Forall_app. split; [done | by constructor].
  - apply Forall_app. split; [|by constructor].
    destruct Hl; [constructor | done].
Qed.

Lemma storable_run calls self :
  (forall k,
     (forall h, _value_history self !! k = Some h -> Forall storable h)
     /\ (forall t, _last_monotonic_values self !! k = Some t ->
           storable t /\ is_monotonic_sensor k = true)) ->
  forall k,
    (forall h, _value_history (run self calls) !! k = Some h ->
       Forall storable h)
    /\ (forall t, _last_monotonic_values (run self calls) !! k = Some t ->
          storable t /\ is_monotonic_sensor k = true).
Proof.
  apply (sensor_invariant_run
           (fun k w =>
              (forall h, view_history w = Some h -> Forall storable h)
              /\ (forall t, view_tracker w = Some t ->
                    storable t /\ is_monotonic_sensor k = true))).
  intros md s sid x [Hh Ht]. simpl. split.
  - intros h. rewrite after_entry_history.
    destruct (fst (_validate_value s sid (PyNum x) md)) eqn:Hok;
      [|apply Hh].
    intros [= <-]. cbv zeta. apply Forall_capped_append.
    + destruct (_value_history s !! sid) as [old|] eqn:Ho; simpl;
        [by apply Hh | constructor].
    + eapply accepted_is_storable. by apply _validate_value_reaches.
  - intros t. rewrite after_entry_tracker.
    destruct (reaches_outlier s sid x md) eqn:Hpre; simpl; [|apply Ht].
    destruct (is_monotonic_sensor sid) eqn:Hm; [|apply Ht].
    intros [= <-]. split; [|done]. by eapply accepted_is_storable.
Qed.

(** X9. On a validator built by the constructor, after any cycles, every
    value in a rolling history is finite and no error sentinel, and the
    tracker has entries only for monotonic sensors, each finite and no error
    sentinel. *)
Theorem only_plausible_values_are_stored
    (enable : bool) (sensitivity : number)
    (custom : option (gmap string (number * number)))
    (calls : list (list (string * PyValue) * metadata)) :
  let self := run (SensorValidator_init enable sensitivity custom) calls in
  (forall sid h x,
     _value_history self !! sid = Some h -> x ∈ h ->
     isfinite x = true /\ _is_modbus_error x = false)
  /\ (forall sid t,
        _last_monotonic_values self !! sid = Some t ->
        isfinite t = true /\ _is_modbus_error t = false
        /\ is_monotonic_sensor sid = true).
Proof.
  intros self.
  assert (forall k,
            (forall h, _value_history self !! k = Some h -> Forall storable h)
            /\ (forall t, _last_monotonic_values self !! k = Some t ->
                  storable t /\ is_monotonic_sensor k = true)) as Hinv.
  { apply storable_run. intros k. simpl. rewrite !lookup_empty.
    split; intros ? [=]. }
  split.
  - intros sid h x Hh Hx. destruct (Hinv sid) as [Hhist _].
    specialize (Hhist h Hh). rewrite Forall_forall in Hhist.
    by apply Hhist.
  - intros sid t Ht. destruct (Hinv sid) as [_ Htr].
    destruct (Htr t Ht) as [[? ?] ?]. done.
Qed.

Lemma capped_append_fmap (cap : nat) (hq : list Q) (xq : Q) :
  (if (length (Fin <$> hq) <? cap)%nat
   then (Fin <$> hq) ++ [Fin xq] else pop0 (Fin <$> hq) ++ [Fin xq])
  = Fin <$> (if (length hq <? cap)%nat then hq ++ [xq] else pop0 hq ++ [xq]).
Proof.
  rewrite length_fmap. destruct (length hq <? cap)%nat.
  - by rewrite fmap_app.
  - rewrite fmap_app. by destruct hq.
Qed.

Lemma ascending_capped_append (cap : nat) (hq : list Q) (xq : Q) :
  StronglySorted Qle hq ->
  Forall (fun y => (y <= xq)%Q) hq ->
  StronglySorted Qle
    (if (length hq <? cap)%nat then hq ++ [xq] else pop0 hq ++ [xq])
  /\ Forall (fun y => (y <= xq)%Q)
       (if (length hq <? cap)%nat then hq ++ [xq] else pop0 hq ++ [xq]).
Proof.
  intros Hs Hb.
  assert (StronglySorted Qle (pop0 hq) /\ Forall (fun y => (y <= xq)%Q) (pop0 hq))
    as [Hs' Hb'].
  { destruct hq as [|y hq]; [done|]. simpl.
    split; [by inversion Hs | by inversion Hb]. }
  assert (forall l, StronglySorted Qle l -> Forall (fun y => (y <= xq)%Q) l ->
            StronglySorted Qle (l ++ [xq])
            /\ Forall (fun y => (y <= xq)%Q) (l ++ [xq])) as Happ.
  { intros l Hl Hf. split.
    - apply StronglySorted_app_2; [|done|repeat constructor].
      intros a b Ha Hb0. apply list_elem_of_singleton in Hb0 as ->.
      rewrite Forall_forall in Hf. by apply Hf.
    - apply Forall_app. split; [done|]. constructor; [apply Qle_refl | done]. }
  destruct (length hq <? cap)%nat; by apply Happ.
Qed.

Lemma ascending_history_entry md self sid x :
  is_monotonic_sensor sid = true ->
  ascending_history (view_of self sid) ->
  ascending_history (view_of (after_entry md self sid (PyNum x)) sid).
Proof.
  intros Hm Hasc h. simpl.
  rewrite after_entry_history, after_entry_tracker, Hm, andb_true_r.
  unfold ascending_history in Hasc. simpl in Hasc.
  destruct (reaches_outlier self sid x md) eqn:Hpre.
  2: { rewrite _validate_value_fst, Hpre. simpl. apply Hasc. }
  pose proof Hpre as Hcond. apply reaches_outlier_iff in Hcond.
  destruct Hcond as (_ & Hfin & _ & Hlast).
  destruct x as [xq| | |]; try discriminate.
  assert (forall hq tq,
            _value_history self !! sid = Some (Fin <$> hq) ->
            _last_monotonic_values self !! sid = Some (Fin tq) ->
            Forall (fun y => (y <= tq)%Q) hq ->
            Forall (fun y => (y <= xq)%Q) hq) as Hbelow.
  { intros hq tq _ Ht Hb. specialize (Hlast Hm _ Ht).
    rewrite num_ltb_fin in Hlast. apply Qltb_ge in Hlast.
    eapply Forall_impl; [exact Hb|]. intros y Hy.
    exact (Qle_trans _ _ _ Hy Hlast). }
  destruct (fst (_validate_value self sid (PyNum (Fin xq)) md)).
  - intros [= <-]. cbv zeta.
    destruct (_value_history self !! sid) as [old|] eqn:Ho.
    + destruct (Hasc old eq_refl) as (hq & tq & -> & Ht & Hs & Hb).
      simpl default. rewrite capped_append_fmap.
      destruct (ascending_capped_append _max_history hq xq Hs) as [Hs' Hb'];
        [by apply (Hbelow hq tq)|].
      eexists _, xq. repeat split; [done | done].
    + exists [xq], xq. simpl. repeat split; [repeat constructor|].
      constructor; [apply Qle_refl | done].
  - intros Hh. destruct (Hasc h Hh) as (hq & tq & -> & Ht & Hs & Hb).
    exists hq, xq. repeat split; [done|]. by apply (Hbelow hq tq).
Qed.

(** X10. On a validator built by the constructor, after any cycles, the
    stored history of a monotonic sensor is non-decreasing and none of its
    values exceeds the tracked value. *)
Theorem monotonic_history_is_ascending
    (enable : bool) (sensitivity : number)
    (custom : option (gmap string (number * number)))
    (calls : list (list (string * PyValue) * metadata))
    (sid : string) (h : list number) :
  let self := run (SensorValidator_init enable sensitivity custom) calls in
  is_monotonic_sensor sid = true ->
  _value_history self !! sid = Some h ->
  exists hq tq,
    h = Fin <$> hq
    /\ _last_monotonic_values self !! sid = Some (Fin tq)
    /\ StronglySorted Qle hq
    /\ Forall (fun y => (y <= tq)%Q) hq.
Proof.
  intros self Hm Hh.
  assert (forall k, is_monotonic_sensor k = true ->
                    ascending_history (view_of self k)) as Hinv.
  { apply (sensor_invariant_run
             (fun k w => is_monotonic_sensor k = true -> ascending_history w)).
    - intros md s k x HQ Hk. apply ascending_history_entry; auto.
    - intros k _ h'. simpl. by rewrite lookup_empty. }
  exact (Hinv sid Hm h Hh).
Qed.

Lemma monotonic_history_is_ascending_witness :
  let calls :=
    (fun z => ([("e_total", PyNum (of_int z))], None : metadata))
      <$> [100; 105; 103; 105; 110]%Z in
  let self := run (SensorValidator_init true (of_int 5) None) calls in
  exists hq tq,
    [of_int 100; of_int 105; of_int 105; of_int 110] = Fin <$> hq
    /\ _last_monotonic_values self !! "e_total" = Some (Fin tq)
    /\ StronglySorted Qle hq
    /\ Forall (fun y => (y <= tq)%Q) hq.
Proof.
  intros calls self.
  apply (monotonic_history_is_ascending true (of_int 5) None calls "e_total").
  - reflexivity.
  - vm_compute. reflexivity.
Defined.

(** ** Counters and failure log *)

Lemma sum_counts_insert (m : gmap string nat) (sid : string) :
  map_fold (fun _ n acc => (n + acc)%nat) 0%nat
    (<[sid := (default 0 (m !! sid) + 1)%nat]> m)
  = S (map_fold (fun _ n acc => (n + acc)%nat) 0%nat m).
Proof.
  assert (forall (m' : gmap string nat) (j1 j2 : string) (z1 z2 y : nat),
            j1 <> j2 -> m' !! j1 = Some z1 -> m' !! j2 = Some z2 ->
            (z1 + (z2 + y) = z2 + (z1 + y))%nat) as Hcomm by (intros; lia).
  destruct (m !! sid) as [n|] eqn:Hn; simpl.
  - rewrite <- (insert_delete_eq m sid (n + 1)%nat).
    rewrite map_fold_insert_L; [|by apply Hcomm | apply lookup_delete_eq].
    rewrite (map_fold_delete_L _ _ sid n m); [lia | by apply Hcomm | done].
  - rewrite map_fold_insert_L; [lia | by apply Hcomm | done].
Qed.

Lemma total_rejections_record st sid x why :
  total_rejections (record_rejection st sid x why) = S (total_rejections st).
Proof. unfold total_rejections. simpl. apply sum_counts_insert. Qed.

Lemma failures_of_pop0 sid log :
  (length (failures_of sid (pop0 log)) <= length (failures_of sid log))%nat.
Proof.
  destruct log as [|e log]; [done|]. unfold failures_of. simpl.
  destruct (String.eqb (f_sensor_id e) sid); simpl; lia.
Qed.

Lemma failures_of_capped sid log e :
  (length (failures_of sid
             (if (length log <? max_recent_failures)%nat
              then log ++ [e] else pop0 log ++ [e]))
   <= length (failures_of sid log)
      + (if String.eqb (f_sensor_id e) sid then 1 else 0))%nat.
Proof.
  assert (forall l, length (failures_of sid (l ++ [e])) =
                    (length (failures_of sid l)
                     + (if String.eqb (f_sensor_id e) sid then 1 else 0))%nat)
    as Happ.
  { intros l. unfold failures_of. rewrite List.filter_app, length_app.
    simpl. by destruct (String.eqb (f_sensor_id e) sid). }
  destruct (length log <? max_recent_failures)%nat; rewrite Happ; [lia|].
  pose proof (failures_of_pop0 sid log). lia.
Qed.

Lemma log_matches_counters_run calls self :
  log_matches_counters self -> log_matches_counters (run self calls).
Proof.
  apply run_preserves; [done | | done].
  intros s sid x why [Hlen Hper]. split.
  - cbn [stats set_stats].
    rewrite record_rejection_log, total_rejections_record.
    unfold max_recent_failures in *.
    destruct (length (recent_failures (stats s)) <? 50)%nat eqn:E.
    + apply Nat.ltb_lt in E. rewrite length_app. cbn [length]. lia.
    + apply Nat.ltb_ge in E.
      destruct (recent_failures (stats s)) as [|e l];
        cbn [length pop0 tail] in *; [lia|].
      rewrite length_app. cbn [length]. lia.
  - intros k. rewrite record_rejection_count.
    cbn [stats set_stats]. rewrite record_rejection_log.
    pose proof (failures_of_capped k (recent_failures (stats s))
                  (mkFailure sid x why)) as Hcap.
    simpl in Hcap. specialize (Hper k).
    destruct (String.eqb sid k); lia.
Qed.

(** X11. In the report of [get_stats], after any cycles on a validator built
    by the constructor, the failure log holds as many entries as rejections
    were counted in total, up to its capacity of 50, and never more entries
    of a sensor than that sensor's counter. *)
Theorem diagnostics_log_matches_counters
    (enable : bool) (sensitivity : number)
    (custom : option (gmap string (number * number)))
    (calls : list (list (string * PyValue) * metadata)) :
  let report :=
    get_stats (run (SensorValidator_init enable sensitivity custom) calls) in
  length (diag_recent_failures report)
    = Nat.min 50
        (map_fold (fun _ n acc => (n + acc)%nat) 0%nat
           (diag_rejected_count report))
  /\ forall sid,
       (length (failures_of sid (diag_recent_failures report))
        <= default 0%nat (diag_rejected_count report !! sid))%nat.
Proof.
  intros report.
  apply (log_matches_counters_run calls
           (SensorValidator_init enable sensitivity custom)).
  split; [done|]. intros sid. simpl. lia.
Qed.

(** X12. The report of [get_stats] shows the enable flag, the sensitivity and
    the number of custom ranges given to the constructor, whatever cycles have
    run since. *)
Theorem diagnostics_show_construction_settings
    (enable : bool) (sensitivity : number)
    (custom : option (gmap string (number * number)))
    (calls : list (list (string * PyValue) * metadata)) :
  let report :=
    get_stats (run (SensorValidator_init enable sensitivity custom) calls) in
  diag_enabled report = enable
  /\ diag_outlier_sensitivity report = sensitivity
  /\ diag_custom_ranges_count report = size (default ∅ custom).
Proof.
  intros report.
  pose proof (run_config calls
                (SensorValidator_init enable sensitivity custom)) as Hc.
  unfold config_of in Hc. injection Hc as He Hs Hcu.
  unfold report, get_stats. simpl. by rewrite He, Hs, Hcu.
Qed.

Lemma validate_data_disabled self data md :
  enable_validation self = false -> validate_data self data md = (data, self).
Proof. intros Hoff. unfold validate_data. by rewrite Hoff. Qed.

(** X13. A validator with validation disabled is the same after any sequence
    of cycles, and every cycle returns its batch unchanged. *)
Theorem disabled_validator_never_changes
    (self : SensorValidator)
    (calls : list (list (string * PyValue) * metadata)) :
  enable_validation self = false ->
  run self calls = self
  /\ Forall (fun call =>
               fst (validate_data self (fst call) (snd call)) = fst call)
       calls.
Proof.
  intros Hoff. split.
  - unfold run. induction calls as [|[data md] calls IH]; [done|].
    cbn [fold_left]. by rewrite validate_data_disabled.
  - apply Forall_forall. intros [data md] _.
    by rewrite validate_data_disabled.
Qed.

Lemma disabled_validator_never_changes_witness :
  let self := SensorValidator_init false (of_int 5) None in
  let calls :=
    [ ([("vgrid", PyNum (of_int 65535))], None : metadata);
      ([("e_total", PyNum NaN); ("ppv", PyNum (of_int 12))], None) ] in
  run self calls = self.
Proof.
  intros self calls.
  exact (proj1 (disabled_validator_never_changes self calls eq_refl)).
Defined.

(** ** Edge cases of the checks *)

Lemma num_leb_trans (a b c : number) :
  num_leb a b = true -> num_leb b c = true -> num_leb a c = true.
Proof.
  destruct a as [x| | |], b as [y| | |], c as [z| | |]; simpl; try done.
  rewrite !Qle_bool_iff. apply Qle_trans.
Qed.

(** X14. A custom range whose lower bound is not below or equal to its upper
    bound (inverted, or with a NaN bound) rejects every numeric reading of its
    sensor. *)
Theorem unsatisfiable_custom_range_blocks_sensor
    (self : SensorValidator) (sid : string) (lo hi x : number)
    (md : metadata) :
  custom_ranges self !! sid = Some (lo, hi) ->
  num_leb lo hi = false ->
  fst (_validate_value self sid (PyNum x) md) = false.
Proof.
  intros Hc Hinv. apply not_true_iff_false.
  rewrite _validate_value_fst, andb_true_iff, reaches_outlier_iff.
  intros [(_ & _ & Hrange & _) _].
  unfold within_resolved_range, resolve_range in Hrange. rewrite Hc in Hrange.
  unfold in_bounds in Hrange. simpl in Hrange.
  apply andb_true_iff in Hrange as [H1 H2].
  by rewrite (num_leb_trans lo x hi H1 H2) in Hinv.
Qed.

Lemma unsatisfiable_custom_range_blocks_sensor_witness :
  let self :=
    SensorValidator_init true (of_int 5)
      (Some {[ "ppv" := (of_int 5000, of_int 0) ]}) in
  fst (_validate_value self "ppv" (PyNum (of_int 1200)) None) = false.
Proof.
  intros self.
  apply (unsatisfiable_custom_range_blocks_sensor self "ppv"
           (of_int 5000) (of_int 0)); reflexivity.
Defined.

(** X15. A unit inferred from the sensor identifier is one of V, A, W, kWh, C,
    Hz, %, and each of these has a default range: an inferred unit always
    brings a range with it. *)
Theorem inferred_unit_has_default_range (sid u : string) :
  infer_unit sid = Some u ->
  u ∈ ["V"; "A"; "W"; "kWh"; "C"; "Hz"; "%"]
  /\ is_Some (DEFAULT_RANGES !! u)
  /\ unit_range (infer_unit sid) = DEFAULT_RANGES !! u.
Proof.
  unfold infer_unit. intros Hu.
  repeat case_match; try discriminate;
    injection Hu as <-; (split; [set_solver | split; [by eexists | done]]).
Qed.

Lemma inferred_unit_has_default_range_witness :
  is_Some (DEFAULT_RANGES !! "kWh").
Proof.
  exact (proj1 (proj2 (inferred_unit_has_default_range "e_total" "kWh"
                         eq_refl))).
Defined.

(** ** Sensitivity *)





Lemma numeric_value_state self sid x md :
  fst (_validate_value self sid (PyNum x) md) = true ->
  isfinite x = true /\ fst (_validate_outlier self sid x) = true.
Proof.
  rewrite _validate_value_fst, andb_true_iff, reaches_outlier_iff. tauto.
Qed.

(** ** A history of zeros *)

Lemma Qsum_zeros (hq : list Q) :
  Forall (fun y => (y == 0)%Q) hq -> (Qsum hq == 0)%Q.
Proof.
  induction 1 as [|y hq Hy _ IH]; simpl; [done|].
  rewrite Hy, IH. apply Qplus_0_l.
Qed.

Lemma extrema_zeros (hq : list Q) :
  hq <> [] ->
  Forall (fun y => (y == 0)%Q) hq ->
  (Qmaximum hq == 0)%Q /\ (Qminimum hq == 0)%Q.
Proof.
  intros Hne Hz. destruct hq as [|x xs]; [done|].
  rewrite Forall_forall in Hz.
  destruct (Qmaximum_is_maximum x xs) as [Hmax _].
  destruct (Qminimum_is_minimum x xs) as [Hmin _].
  split; apply Hz; by apply list_elem_of_In.
Qed.

Lemma Qabs_pos_iff (q : Q) : (0 < Qabs q)%Q <-> ~ (q == 0)%Q.
Proof.
  split.
  - intros Hpos Hq. rewrite Hq in Hpos. by apply Qlt_irrefl in Hpos.
  - intros Hq. apply Qnot_le_lt. intros Hle.
    apply Qabs_Qle_condition in Hle as [Hlo Hhi].
    apply Hq. by apply Qle_antisym.
Qed.

Lemma outlier_rule_zeros (hq : list Q) (sens q : Q) :
  (3 <= length hq)%nat ->
  Forall (fun y => (y == 0)%Q) hq ->
  outlier_rule hq sens q <-> ~ (q == 0)%Q.
Proof.
  intros Hlen Hz.
  assert (hq <> []) as Hne by (intros ->; simpl in Hlen; lia).
  destruct (extrema_zeros hq Hne Hz) as [Hhi Hlo].
  assert (Qmean hq == 0)%Q as Hmean.
  { unfold Qmean. rewrite (Qsum_zeros hq Hz). unfold Qdiv. apply Qmult_0_l. }
  unfold outlier_rule. cbv zeta.
  rewrite (Qltb_comp (Qabs (Qmean hq)) (Qabs 0) 0.1 0.1)
    by (by rewrite ?Hmean).
  change (Qltb (Qabs 0) 0.1) with true. cbv iota.
  assert ((Qmaximum hq - Qminimum hq) * sens
          + Qmax2 (Qabs (Qmaximum hq)) (Qabs (Qminimum hq)) == 0)%Q as ->.
  { destruct (Qmax2_bounds (Qabs (Qmaximum hq)) (Qabs (Qminimum hq)))
      as ([-> | ->] & _); rewrite Hhi, Hlo; reflexivity. }
  apply Qabs_pos_iff.
Qed.

Lemma zero_history_entry md self sid sens x :
  outlier_sensitivity self = Fin sens ->
  zero_history (view_of self sid) ->
  zero_history (view_of (after_entry md self sid (PyNum x)) sid).
Proof.
  intros Hs (hq & Hh & Hlen & Hz). unfold zero_history. simpl in *.
  rewrite after_entry_history.
  destruct (fst (_validate_value self sid (PyNum x) md)) eqn:Hok.
  2: { by exists hq. }
  apply numeric_value_state in Hok as (Hfin & Hout).
  destruct x as [xq| | |]; try discriminate.
  assert (xq == 0)%Q as Hx.
  { destruct (Qeq_dec xq 0) as [|Hnz]; [done|].
    apply (outlier_rule_zeros hq sens xq Hlen Hz) in Hnz.
    apply (_validate_outlier_rule self sid hq sens xq Hh Hlen Hs) in Hnz.
    congruence. }
  rewrite Hh. simpl default. cbv zeta. rewrite capped_append_fmap.
  eexists. split; [done|]. split.
  - destruct (length hq <? _max_history)%nat eqn:E.
    + rewrite length_app. simpl. lia.
    + apply Nat.ltb_ge in E. unfold _max_history in E.
      destruct hq; simpl in *; [lia|]. rewrite length_app. simpl. lia.
  - by apply Forall_capped_append.
Qed.

(** X17. Once the stored history of a sensor holds at least three readings,
    all zero (and the sensitivity is finite), every non-zero reading of that sensor is dropped, in every later
    cycle: accepted readings are zero again, so the history stays all zero. *)
Theorem zero_history_locks_sensor
    (self : SensorValidator) (sid : string) (hq : list Q) (sens : Q)
    (calls : list (list (string * PyValue) * metadata))
    (data : list (string * PyValue)) (md : metadata) (q : Q) :
  enable_validation self = true ->
  outlier_sensitivity self = Fin sens ->
  _value_history self !! sid = Some (Fin <$> hq) ->
  (3 <= length hq)%nat ->
  Forall (fun y => (y == 0)%Q) hq ->
  NoDup (data.*1) ->
  (sid, PyNum (Fin q)) ∈ data ->
  ~ (q == 0)%Q ->
  dict_get (fst (validate_data (run self calls) data md)) sid = None.
Proof.
  intros Hen Hs Hh Hlen Hz Hnd Hin Hq.
  set (later := run self calls).
  assert (config_of later = config_of self) as Hc by apply run_config.
  unfold config_of in Hc. injection Hc as Hen' Hs' _.
  assert (sid = sid ->
          view_sensitivity (view_of later sid) = Fin sens
          /\ zero_history (view_of later sid)) as Hinv.
  { apply (sensor_invariant_run
             (fun k w => k = sid ->
                view_sensitivity w = Fin sens /\ zero_history w)).
    - intros md' s k x HQ ->. destruct (HQ eq_refl) as [Hsens Hzero].
      split; [by rewrite after_entry_view|].
      by apply (zero_history_entry md' s sid sens).
    - intros k ->. split; [done|]. by exists hq. }
  destruct (Hinv eq_refl) as (_ & hq' & Hh' & Hlen' & Hz').
  simpl in Hh'.
  destruct (validate_data_for_sensor later data md sid (PyNum (Fin q)))
    as [-> _]; [congruence | done | done |].
  rewrite _validate_value_fst.
  apply (outlier_rule_zeros hq' sens q Hlen' Hz') in Hq.
  apply (_validate_outlier_rule later sid hq' sens q Hh' Hlen') in Hq;
    [|congruence].
  rewrite Hq. by rewrite andb_false_r.
Qed.

Lemma zero_history_locks_sensor_witness :
  let night :=
    run (SensorValidator_init true (of_int 5) None)
      [ ([("ppv", PyNum (of_int 0))], None);
        ([("ppv", PyNum (of_int 0))], None);
        ([("ppv", PyNum (of_int 0))], None) ] in
  dict_get (fst (validate_data night [("ppv", PyNum (Fin 1500))] None)) "ppv"
    = None.
Proof.
  intros night.
  apply (zero_history_locks_sensor night "ppv" [0; 0; 0]%Q 5%Q []
           [("ppv", PyNum (Fin 1500))] None 1500%Q).
  - reflexivity.
  - reflexivity.
  - vm_compute. reflexivity.
  - simpl. lia.
  - repeat constructor.
  - dict_keys.
  - dict_member.
  - intros H. discriminate H.
Defined.
